(** * speech: pitch descriptors over an f0 contour (speech.cpp)

    A shallow embedding of [speech.cpp]: the four reductions
    [getPitch1] .. [getPitch4] over a [double] array, the shared
    [jsonResult] object, [__PitchAnalyzer] and the exported
    [PitchAnalyzer2], followed by the properties of the design document
    that are settled against them.

    Data, as the code has it:
    - [double] is IEEE 754 binary64, round to nearest even: the primitive
      type [float] with its operations;
    - [int] is a 32-bit signed integer, carried as [Z]; signed overflow is
      undefined behaviour and is an explicit error;
    - a [const double *] is the list of the cells of the array it points to;
      an access outside the array is an explicit error;
    - [jsonResult] is a finite map from field names to JSON values. *)

From Stdlib Require Import ZArith List Floats Lia Permutation.
From Stdlib Require Uint63.
From stdpp Require Import base option list gmap strings.

Local Open Scope Z_scope.

(** ** Undefined behaviour and escaping exceptions

    A run that meets undefined behaviour, or throws what nothing catches,
    ends in [Err]; [Ok] means that every array access was inside the
    array, no divisor was zero and no exception escaped. *)

Inductive error : Type :=
  | OutOfBounds (i : Z)           (* dat[i] outside the array *)
  | DivByZero                     (* [expr.mul]: second operand of / is zero *)
  | SignedOverflow                (* int arithmetic leaves the range of int *)
  | InvalidRange                  (* std::for_each on [first, last) with last < first *)
  | JsonOutOfRange (k : string)   (* json::at on a key the object lacks *)
  | MapOutOfRange (e : Z).        (* std::map::at on a key the map lacks *)

Inductive res (A : Type) : Type :=
  | Ok (a : A)
  | Err (e : error).
Arguments Ok {A} a.
Arguments Err {A} e.

(** Sequencing stops at the first error: [x ← m; k] is stdpp's notation
    for [mbind]. *)
#[global] Instance res_ret : MRet res := @Ok.
#[global] Instance res_bind : MBind res := λ A B k m,
  match m with
  | Ok a => k a
  | Err e => Err e
  end.

(** ** [int] and [double] *)

Definition INT_MIN : Z := -2147483648.
Definition INT_MAX : Z := 2147483647.

Definition in_int (n : Z) : bool := (INT_MIN <=? n) && (n <=? INT_MAX).

(** [a - b] on [int]. *)
Definition int_sub (a b : Z) : res Z :=
  if in_int (a - b) then Ok (a - b) else Err SignedOverflow.

(** [a / 2] on [int]: truncation toward zero, never overflows. *)
Definition int_half (a : Z) : Z := Z.quot a 2.

(** The conversion [int -> double]; exact on the whole range of [int]. *)
Definition double_of_int (n : Z) : float :=
  if n <? 0 then PrimFloat.opp (PrimFloat.of_uint63 (Uint63.of_Z (- n)))
  else PrimFloat.of_uint63 (Uint63.of_Z n).

(** [x / d] with [d] an [int] converted to [double]. *)
Definition div_int (x : float) (d : Z) : res float :=
  if d =? 0 then Err DivByZero else Ok (PrimFloat.div x (double_of_int d)).

(** [x / 5.0]: the divisor is a nonzero constant. *)
Definition div_5 (x : float) : float := PrimFloat.div x 5%float.

(** [std::pow(x, 2)]: the square, rounded once. *)
Definition pow_2 (x : float) : float := PrimFloat.mul x x.

(** ** Arrays and loops *)

(** [dat[i]]. *)
Definition read (dat : list float) (i : Z) : res float :=
  if i <? 0 then Err (OutOfBounds i)
  else match dat !! Z.to_nat i with
       | Some x => Ok x
       | None => Err (OutOfBounds i)
       end.

(** [n] iterations of [body] from index [i], the index stepping by one. *)
Fixpoint iterate {S : Type} (n : nat) (i : Z) (body : Z -> S -> res S) (s : S)
  : res S :=
  match n with
  | O => Ok s
  | Datatypes.S n' => s' ← body i s; iterate n' (i + 1) body s'
  end.

(** [for (int i = lo; i < hi; i++) body]. *)
Definition for_range {S : Type} (lo hi : Z) (body : Z -> S -> res S) (s : S)
  : res S :=
  iterate (Z.to_nat (hi - lo)) lo body s.

(** [std::for_each(dat, dat + n, f)]. *)
Definition for_each {S : Type} (dat : list float) (n : Z)
    (f : float -> S -> S) (s : S) : res S :=
  if n <? 0 then Err InvalidRange
  else for_range 0 n (fun i s => each ← read dat i; Ok (f each s)) s.

(** ** The four statistics *)

Definition getPitch1 (dat : list float) (dat_length : Z) : res float :=
  sum ← for_range 0 dat_length
          (fun i sum =>
             x ← read dat i;
             if PrimFloat.eqb x 0%float then Ok sum
             else Ok (PrimFloat.add sum x))
          0%float;
  div_int sum dat_length.

Definition getPitch2 (dat : list float) (dat_length : Z) : res float :=
  sum ← for_each dat dat_length (fun each sum => PrimFloat.add sum each)
          0%float;
  mean ← div_int sum dat_length;
  sd ← for_each dat dat_length
         (fun each sd => PrimFloat.add sd (pow_2 (PrimFloat.sub each mean)))
         0%float;
  q ← div_int sd dat_length;
  Ok (PrimFloat.sqrt q).

Definition getPitch3 (dat : list float) (dat_length : Z) : res float :=
  sum1 ← for_range 0 (int_half dat_length)
           (fun i sum1 => x ← read dat i; Ok (PrimFloat.add sum1 x))
           0%float;
  sum1 ← div_int sum1 (int_half dat_length);
  sum2 ← for_range (int_half dat_length) dat_length
           (fun i sum2 => x ← read dat i; Ok (PrimFloat.add sum2 x))
           0%float;
  sum2 ← div_int sum2 (int_half dat_length);
  Ok (PrimFloat.sub sum2 sum1).

(** [dat_length - 5] is written three times in the source, always with the
    same operands; it is evaluated once here, before its first use. *)
Definition getPitch4 (dat : list float) (dat_length : Z) : res float :=
  tail ← int_sub dat_length 5;
  sum1 ← for_range 0 tail
           (fun i sum1 => x ← read dat i; Ok (PrimFloat.add sum1 x))
           0%float;
  sum1 ← div_int sum1 tail;
  sum2 ← for_range tail dat_length
           (fun i _ => read dat i)
           0%float;
  Ok (PrimFloat.sub (div_5 sum2) sum1).

(** ** The shared result object and the error catalogue *)

(** The values [jsonResult] holds. *)
Inductive json : Type :=
  | JInt (n : Z)
  | JString (s : string)
  | JFloat (x : float).

(** [static const std::map<int, std::string> errCode]; the literal [0000]
    is the integer [0]. *)
Definition errCode : gmap Z string :=
  list_to_map
    [ (0, "success");
      (1000, "Error : file not found");
      (1001, "Error : file cannot be read");
      (1002, "Error : file is not on correct format");
      (2000, "Error : no speech detected");
      (2001, "Error : cannot calculate pitch 1. Reason : ...");
      (2002, "Error : cannot calculate pitch 2. Reason : ...");
      (2003, "Error : cannot calculate pitch 3. Reason : ...");
      (2004, "Error : cannot calculate pitch 4. Reason : ...");
      (3000, "Error : Memory Allocation Error") ].

(** [errCode.at(e)]: throws when the catalogue has no entry for [e]. *)
Definition errCode_at (e : Z) : res string :=
  match errCode !! e with
  | Some s => Ok s
  | None => Err (MapOutOfRange e)
  end.

(** [jsonResult.at(k) = v]: [at] throws when the object has no field [k],
    and otherwise the field is overwritten in place. *)
Definition json_at_put (k : string) (v : json) (j : gmap string json)
  : res (gmap string json) :=
  match j !! k with
  | Some _ => Ok (<[k := v]> j)
  | None => Err (JsonOutOfRange k)
  end.

(** Modelled from the spec: the declaration of [jsonResult] is in
    [jsonString.hpp], which is not among the sources. The document gives it
    six fields: a status code, a comment and four pitch descriptors. *)
Definition fields : list string :=
  ["status"; "comment"; "pitch1"; "pitch2"; "pitch3"; "pitch4"].

Definition has_fields (j : gmap string json) : Prop :=
  Forall (fun k => is_Some (j !! k)) fields.

(** Modelled from the spec: a result object as a process may hold it before
    its first call, with the six fields and no information in them. *)
Definition jsonResult0 : gmap string json :=
  list_to_map
    [ ("status", JInt 0); ("comment", JString "");
      ("pitch1", JFloat 0); ("pitch2", JFloat 0);
      ("pitch3", JFloat 0); ("pitch4", JFloat 0) ].

(** ** The collaborators

    What [speech.cpp] calls and does not define: the C library, [audioio],
    the WORLD analysis library and the JSON library. A [World] fixes their
    answers. The diagnostics written to [std::cerr] are not modelled, and
    the allocations that no handler surrounds ([new _wavFile], [new _f0],
    [new char[]]) are taken to succeed. *)
Record World : Type := {
  (* errno_t fopen_s(&file, fileName, "r"): zero when the file opens *)
  fopen_s : string -> Z;
  (* int GetAudioLength(fileName) *)
  GetAudioLength : string -> Z;
  (* new double[n]: [Some what] when it throws std::bad_alloc, [what] being
     e.what() *)
  new_double : Z -> option string;
  (* wavread(fileName, &fs, &nbit, buf): fs, nbit and the samples *)
  wavread : string -> Z -> Z * Z * list float;
  (* option.frame_period after InitializeHarvestOption *)
  frame_period : float;
  (* int GetSamplesForHarvest(fs, x_length, frame_period) *)
  GetSamplesForHarvest : Z -> Z -> float -> Z;
  (* Harvest(x, x_length, fs, &option, temporal_positions, f0): the two
     arrays it writes *)
  Harvest : list float -> Z -> Z -> float -> list float * list float;
  (* jsonResult.dump() *)
  dump : gmap string json -> string
}.

Module _wavFile.
Record t : Type := {
  fileName : string;
  fs : Z;
  nbit : Z;
  length : Z;
  buf : list float
}.
End _wavFile.

Module _f0.
Record t : Type := {
  f0 : list float;
  temporalPossition : list float;
  numOfFrame : Z
}.
End _f0.

(** A constructor either completes or throws an [int], which the caller
    catches. *)
Inductive thrown (A : Type) : Type :=
  | Built (a : A)
  | Throw (e : Z).
Arguments Built {A} a.
Arguments Throw {A} e.

(** [_wavFile::_wavFile(fileName)], with the result object threaded
    through. *)
Definition _wavFile_new (w : World) (file : string) (jsonResult : gmap string json)
  : res (thrown _wavFile.t * gmap string json) :=
  let length := GetAudioLength w file in
  if (length =? 0) || (length =? -1) then
    jsonResult ← json_at_put "status" (JInt 1002) jsonResult;
    comment ← errCode_at 1002;
    jsonResult ← json_at_put "comment" (JString comment) jsonResult;
    Ok (Throw 1002, jsonResult)
  else
    match new_double w length with
    | Some what =>
        comment ← errCode_at 3000;
        jsonResult ← json_at_put "status" (JInt 3000) jsonResult;
        jsonResult ← json_at_put "comment" (JString (comment +:+ what)) jsonResult;
        Ok (Throw 3000, jsonResult)
    | None =>
        let '(fs, nbit, buf) := wavread w file length in
        Ok (Built {| _wavFile.fileName := file; _wavFile.fs := fs;
                     _wavFile.nbit := nbit; _wavFile.length := length;
                     _wavFile.buf := buf |},
            jsonResult)
    end.

(** [_f0::_f0(in)]: two zeroed arrays of [in] cells. *)
Definition _f0_new (w : World) (n : Z) (jsonResult : gmap string json)
  : res (thrown _f0.t * gmap string json) :=
  match new_double w n with
  | Some what =>
      comment ← errCode_at 3000;
      jsonResult ← json_at_put "status" (JInt 3000) jsonResult;
      jsonResult ← json_at_put "comment" (JString (comment +:+ what)) jsonResult;
      Ok (Throw 3000, jsonResult)
  | None =>
      Ok (Built {| _f0.f0 := replicate (Z.to_nat n) 0%float;
                   _f0.temporalPossition := replicate (Z.to_nat n) 0%float;
                   _f0.numOfFrame := n |},
          jsonResult)
  end.

(** The frequency array once [Harvest] has run: [n] cells, zero where
    [Harvest] wrote nothing. *)
Definition harvested (n : Z) (freq : list float) : list float :=
  resize (Z.to_nat n) 0%float freq.

(** [__PitchAnalyzer(fileName)]: the status code returned and the result
    object left behind. The four tasks started with [std::async] only read
    the array and are awaited before anything is stored, so they are run
    one after the other. *)
Definition __PitchAnalyzer (w : World) (fileName : string)
    (jsonResult : gmap string json) : res (Z * gmap string json) :=
  if fopen_s w fileName =? 0 then
    '(wav, jsonResult) ← _wavFile_new w fileName jsonResult;
    match wav with
    | Throw e => Ok (e, jsonResult)
    | Built wav =>
        '(f0, jsonResult) ←
          _f0_new w
            (GetSamplesForHarvest w (_wavFile.fs wav) (_wavFile.length wav)
               (frame_period w))
            jsonResult;
        match f0 with
        | Throw e => Ok (e, jsonResult)
        | Built f0 =>
            let '(temporal, freq) :=
              Harvest w (_wavFile.buf wav) (_wavFile.length wav)
                (_wavFile.fs wav) (frame_period w) in
            let dat := harvested (_f0.numOfFrame f0) freq in
            ret1 ← getPitch1 dat (_f0.numOfFrame f0);
            ret2 ← getPitch2 dat (_f0.numOfFrame f0);
            ret3 ← getPitch3 dat (_f0.numOfFrame f0);
            ret4 ← getPitch4 dat (_f0.numOfFrame f0);
            jsonResult ← json_at_put "pitch1" (JFloat ret1) jsonResult;
            jsonResult ← json_at_put "pitch2" (JFloat ret2) jsonResult;
            jsonResult ← json_at_put "pitch3" (JFloat ret3) jsonResult;
            jsonResult ← json_at_put "pitch4" (JFloat ret4) jsonResult;
            comment ← errCode_at 0;
            jsonResult ← json_at_put "comment" (JString comment) jsonResult;
            Ok (0, jsonResult)
        end
    end
  else
    comment ← errCode_at 1000;
    jsonResult ← json_at_put "status" (JInt 1000) jsonResult;
    jsonResult ← json_at_put "comment" (JString comment) jsonResult;
    Ok (1000, jsonResult).

(** What a [char *] result can be. *)
Inductive pointer : Type :=
  | nullptr
  | buffer (s : string).

(** [PitchAnalyzer2(fileName)]: the status code of [__PitchAnalyzer] is
    dropped and a fresh buffer with the serialized object is returned. *)
Definition PitchAnalyzer2 (w : World) (fileName : string)
    (jsonResult : gmap string json) : res (pointer * gmap string json) :=
  '(_, jsonResult) ← __PitchAnalyzer w fileName jsonResult;
  let x := dump w jsonResult in
  Ok (buffer x, jsonResult).

(** ** The vocabulary of the design document *)

(** The number of frames of a contour, as the [int] handed to the
    statistics. *)
Definition frames (dat : list float) : Z := Z.of_nat (length dat).

(** The sum of a run of frames: left to right from [0.0], each addition
    rounded, as an accumulating loop computes it. *)
Definition fsum (l : list float) : float := fold_left PrimFloat.add l 0%float.

(** A frame is voiced when it does not compare equal to [0.0]. *)
Definition voiced (x : float) : bool := negb (PrimFloat.eqb x 0%float).

(** The average of a run of frames: its sum over its own length. *)
Definition average (l : list float) : float :=
  PrimFloat.div (fsum l) (double_of_int (frames l)).

(** Frames compared as [double]s: IEEE equality, under which a NaN differs
    from everything. *)
Definition same_double (r r' : res float) : bool :=
  match r, r' with
  | Ok x, Ok y => PrimFloat.eqb x y
  | _, _ => false
  end.

(** Frames written as integers. *)
Definition fl (l : list Z) : list float := map double_of_int l.

(** Pitch4 in the words of the design document, which are also the order
    of the operands in the [@return] line above [getPitch4]: the average of
    the frames [[0, F-5)] minus a fifth of the last frame. *)
Definition Pitch4_as_specified (dat : list float) : option float :=
  x ← last dat;
  Some (PrimFloat.sub (average (take (length dat - 5) dat)) (div_5 x)).

(** Two orderings of the same three frames, [2^53], [2^53 + 2] and
    [2^53 + 2]. Taken in the first order the running sum rounds down twice
    and the mean is [2^53]; taken in the second every sum is exact and the
    mean rounds to [2^53 + 2]. *)
Definition rising : list float :=
  fl [9007199254740992; 9007199254740994; 9007199254740994].
Definition falling : list float :=
  fl [9007199254740994; 9007199254740994; 9007199254740992].

(** The contour the statistics are run on and its frame count, when a call
    gets that far: the file opens, its length is accepted and both
    allocations succeed. *)
Definition contour (w : World) (fileName : string) : option (list float * Z) :=
  if fopen_s w fileName =? 0 then
    let length := GetAudioLength w fileName in
    if (length =? 0) || (length =? -1) then None
    else match new_double w length with
         | Some _ => None
         | None =>
             let '(fs, nbit, buf) := wavread w fileName length in
             let n := GetSamplesForHarvest w fs length (frame_period w) in
             match new_double w n with
             | Some _ => None
             | None =>
                 Some (harvested n (Harvest w buf length fs (frame_period w)).2, n)
             end
         end
  else None.

(** A small world to run calls in: one file, [voice.wav], of 480 samples,
    on which [Harvest] finds the frames [freq]; every other path fails to
    open. *)
Definition recording (freq : list float) : World := {|
  fopen_s := fun f => if String.eqb f "voice.wav" then 0 else 2;
  GetAudioLength := fun _ => 480;
  new_double := fun _ => None;
  wavread := fun _ n => (16000, 16, replicate (Z.to_nat n) 0%float);
  frame_period := 5%float;
  GetSamplesForHarvest := fun _ _ _ => frames freq;
  Harvest := fun _ _ _ _ =>
    (fl (map (fun i => 5 * Z.of_nat i) (seq 0 (length freq))), freq);
  dump := fun j =>
    match j !! "status" with
    | Some (JInt 0) => "{status:0}"
    | _ => "{status:error}"
    end
|}.

(** [voice.wav] with the six frames [10 .. 60]. *)
Definition studio : World := recording (fl [10; 20; 30; 40; 50; 60]).

(** ** Binary64 values: signs and NaNs *)

(** The sign carried by a value that is not a NaN. *)
Definition has_sign (b : bool) (s : spec_float) : Prop :=
  match s with
  | S754_zero b' | S754_infinity b' | S754_finite b' _ _ => b' = b
  | S754_nan => False
  end.

Definition not_nan (s : spec_float) : Prop := s <> S754_nan.

Definition finite_sf (s : spec_float) : Prop :=
  match s with
  | S754_zero _ | S754_finite _ _ _ => True
  | _ => False
  end.

(** ** The caller's buffer and [PitchAnalyzer] *)

(** The terminator of a C string. *)
Definition NUL : Ascii.ascii := Ascii.zero.

(** The characters of a [std::string], in order. *)
Definition chars (x : string) : list Ascii.ascii := String.list_ascii_of_string x.

(** [x.copy(dest, count, 0)]: [std::string::copy] writes the first
    [min(count, x.size())] characters of [x] to [dest] and no terminator
    after them; [dest] is the array of the cells it points to, and writing
    past its end is an error. Both calls in the source pass the position
    [0], for which [copy] does not throw. *)
Definition copy (x : string) (dest : list Ascii.ascii) (count : nat) : res (list Ascii.ascii) :=
  let sub := take count (chars x) in
  if (length sub <=? length dest)%nat
  then Ok (sub ++ drop (length sub) dest)
  else Err (OutOfBounds (Z.of_nat (length dest))).

(** [PitchAnalyzer(fileName, dst)]: the serialized object is copied into
    the caller's [dst], and the code of [__PitchAnalyzer] is returned. *)
Definition PitchAnalyzer (w : World) (fileName : string) (dst : list Ascii.ascii)
    (jsonResult : gmap string json)
  : res (Z * list Ascii.ascii * gmap string json) :=
  '(err, jsonResult) ← __PitchAnalyzer w fileName jsonResult;
  let x := dump w jsonResult in
  dst ← copy x dst (String.length x + 1);
  Ok (if err =? 0 then 0 else err, dst, jsonResult).

(** The array behind the pointer that [PitchAnalyzer2] returns:
    [new char[x.length() + 1]{}], zeroed, then [x.copy(json_return,
    x.length(), 0)]. *)
Definition json_return (x : string) : res (list Ascii.ascii) :=
  copy x (replicate (String.length x + 1) NUL) (String.length x).

(** What a caller reads from a [char] array as a C string from cell [i] on:
    the characters before the first [NUL]; running off the array is an
    error. *)
Fixpoint c_str_from (i : Z) (buf : list Ascii.ascii) : res (list Ascii.ascii) :=
  match buf with
  | [] => Err (OutOfBounds i)
  | c :: buf' =>
      if Ascii.eqb c NUL then Ok []
      else s ← c_str_from (i + 1) buf'; Ok (c :: s)
  end.

Definition c_str (buf : list Ascii.ascii) : res (list Ascii.ascii) := c_str_from 0 buf.

(** A text without a [NUL] inside, as a JSON serializer writes it. *)
Definition no_NUL (text : list Ascii.ascii) : bool :=
  forallb (fun c => negb (Ascii.eqb c NUL)) text.

(** The result object a failure path leaves: the code in the status field,
    a text in the comment field. *)
Definition failed (code : Z) (text : string) (j : gmap string json)
  : gmap string json :=
  <["comment" := JString text]> (<["status" := JInt code]> j).

(** The result object the success path leaves. *)
Definition succeeded (ret1 ret2 ret3 ret4 : float) (j : gmap string json)
  : gmap string json :=
  <["comment" := JString "success"]>
    (<["pitch4" := JFloat ret4]>
       (<["pitch3" := JFloat ret3]>
          (<["pitch2" := JFloat ret2]>
             (<["pitch1" := JFloat ret1]> j)))).

(** Worlds for the failure paths: [voice.wav] opens in all of them. In
    [truncated] the audio length is [0]; in [cramped] no array of more
    than 100 cells can be allocated, so the sample buffer fails; in
    [long_take] the length is 50 and [GetSamplesForHarvest] asks for 1000
    frames, so the arrays of [_f0] fail. *)
Definition truncated : World := {|
  fopen_s := fopen_s studio;
  GetAudioLength := fun _ => 0;
  new_double := new_double studio;
  wavread := wavread studio;
  frame_period := frame_period studio;
  GetSamplesForHarvest := GetSamplesForHarvest studio;
  Harvest := Harvest studio;
  dump := dump studio
|}.

Definition cramped : World := {|
  fopen_s := fopen_s studio;
  GetAudioLength := GetAudioLength studio;
  new_double := fun n => if 100 <? n then Some "std::bad_alloc" else None;
  wavread := wavread studio;
  frame_period := frame_period studio;
  GetSamplesForHarvest := GetSamplesForHarvest studio;
  Harvest := Harvest studio;
  dump := dump studio
|}.

Definition long_take : World := {|
  fopen_s := fopen_s studio;
  GetAudioLength := fun _ => 50;
  new_double := new_double cramped;
  wavread := wavread studio;
  frame_period := frame_period studio;
  GetSamplesForHarvest := fun _ _ _ => 1000;
  Harvest := Harvest studio;
  dump := dump studio
|}.

(** * Properties *)

(** ** Loops over an array *)

Lemma read_nat (dat : list float) (k : nat) :
  read dat (Z.of_nat k) =
  match dat !! k with Some x => Ok x | None => Err (OutOfBounds (Z.of_nat k)) end.
Proof.
  unfold read. destruct (Z.ltb_spec (Z.of_nat k) 0) as [H|H]; [lia|].
  now rewrite Nat2Z.id.
Qed.

Lemma read_Ok_inv (dat : list float) (i : Z) (x : float) :
  read dat i = Ok x -> 0 <= i < frames dat.
Proof.
  unfold read, frames. destruct (Z.ltb_spec i 0) as [H|H]; [discriminate|].
  destruct (dat !! Z.to_nat i) eqn:E; [|discriminate].
  intros _. apply lookup_lt_Some in E. lia.
Qed.

Lemma read_negative (dat : list float) (i : Z) :
  i < 0 -> read dat i = Err (OutOfBounds i).
Proof.
  intros H. unfold read. now destruct (Z.ltb_spec i 0) as [_|H']; [|lia].
Qed.

Lemma div_int_Ok_inv (x y : float) (d : Z) : div_int x d = Ok y -> d <> 0.
Proof.
  unfold div_int. destruct (Z.eqb_spec d 0); [discriminate|auto].
Qed.

Lemma div_int_nonzero (x : float) (d : Z) :
  d <> 0 -> div_int x d = Ok (PrimFloat.div x (double_of_int d)).
Proof.
  intros H. unfold div_int. now destruct (Z.eqb_spec d 0).
Qed.

Lemma iterate_ext {S : Type} (body body' : Z -> S -> res S) n i s :
  (forall j t, body j t = body' j t) ->
  iterate n i body s = iterate n i body' s.
Proof.
  intros E. revert i s. induction n as [|n IH]; intros i s; simpl; [easy|].
  rewrite E. destruct (body' i s); simpl; auto.
Qed.

Lemma for_range_ext {S : Type} (body body' : Z -> S -> res S) lo hi s :
  (forall j t, body j t = body' j t) ->
  for_range lo hi body s = for_range lo hi body' s.
Proof. apply iterate_ext. Qed.

(** A loop that folds [f] over the cells it reads, all of them inside the
    array, is the fold of [f] over that slice. *)
Lemma iterate_fold {S : Type} (f : S -> float -> S) (dat : list float) n k s :
  (k + n <= length dat)%nat ->
  iterate n (Z.of_nat k) (fun i s => x ← read dat i; Ok (f s x)) s =
  Ok (fold_left f (take n (drop k dat)) s).
Proof.
  revert k s. induction n as [|n IH]; intros k s Hlen; simpl.
  - reflexivity.
  - rewrite read_nat.
    destruct (dat !! k) as [x|] eqn:E.
    2:{ apply lookup_ge_None in E. lia. }
    simpl. rewrite (drop_S _ _ _ E). simpl.
    replace (Z.of_nat k + 1) with (Z.of_nat (Datatypes.S k)) by lia.
    apply IH. lia.
Qed.

Lemma for_range_fold {S : Type} (f : S -> float -> S) (dat : list float)
    (lo hi : Z) s :
  0 <= lo <= hi -> hi <= frames dat ->
  for_range lo hi (fun i s => x ← read dat i; Ok (f s x)) s =
  Ok (fold_left f (take (Z.to_nat (hi - lo)) (drop (Z.to_nat lo) dat)) s).
Proof.
  unfold for_range, frames. intros Hlo Hhi.
  rewrite <- (Z2Nat.id lo) at 2 by lia.
  apply iterate_fold. lia.
Qed.

Lemma for_range_empty {S : Type} (lo hi : Z) (body : Z -> S -> res S) s :
  hi <= lo -> for_range lo hi body s = Ok s.
Proof.
  intros H. unfold for_range. now replace (Z.to_nat (hi - lo)) with O by lia.
Qed.

Lemma for_range_first_fails {S : Type} (lo hi : Z) (body : Z -> S -> res S) s e :
  lo < hi -> body lo s = Err e -> for_range lo hi body s = Err e.
Proof.
  intros H E. unfold for_range.
  destruct (Z.to_nat (hi - lo)) as [|n] eqn:En; [lia|].
  simpl. now rewrite E.
Qed.

Lemma fold_left_skip_silent (l : list float) (s : float) :
  fold_left (fun s x => if PrimFloat.eqb x 0%float then s else PrimFloat.add s x) l s =
  fold_left PrimFloat.add (List.filter voiced l) s.
Proof.
  revert s. induction l as [|x l IH]; intros s; simpl; [easy|].
  unfold voiced at 1. destruct (PrimFloat.eqb x 0%float); simpl; apply IH.
Qed.

Lemma fold_left_keep_last (l : list float) (s x : float) :
  last l = Some x -> fold_left (fun _ y => y) l s = x.
Proof.
  revert s. induction l as [|y l IH]; intros s; [discriminate|].
  destruct l as [|z l]; simpl in *.
  - congruence.
  - intros H. now apply IH.
Qed.

Lemma last_of_tail (l : list float) (n : nat) :
  (n < length l)%nat -> last (drop n l) = last l.
Proof.
  intros H. rewrite !last_lookup, lookup_drop, length_drop.
  f_equal. lia.
Qed.

(** ** What the four loops compute *)

Lemma getPitch1_value (dat : list float) :
  0 < frames dat ->
  getPitch1 dat (frames dat) =
  Ok (PrimFloat.div (fsum (List.filter voiced dat)) (double_of_int (frames dat))).
Proof.
  intros HF. unfold getPitch1.
  rewrite (for_range_ext _
    (fun i s => x ← read dat i;
       Ok ((fun s x => if PrimFloat.eqb x 0%float then s else PrimFloat.add s x) s x))).
  2:{ intros j t. destruct (read dat j) as [x|]; simpl; [|easy].
      now destruct (PrimFloat.eqb x 0%float). }
  rewrite for_range_fold by lia. simpl.
  rewrite div_int_nonzero by lia.
  rewrite Z.sub_0_r, drop_0. unfold frames at 1. rewrite Nat2Z.id, firstn_all.
  now rewrite fold_left_skip_silent.
Qed.

Lemma getPitch3_value (dat : list float) :
  2 <= frames dat ->
  getPitch3 dat (frames dat) =
  Ok (PrimFloat.sub
        (PrimFloat.div (fsum (drop (Z.to_nat (frames dat / 2)) dat))
                       (double_of_int (frames dat / 2)))
        (PrimFloat.div (fsum (take (Z.to_nat (frames dat / 2)) dat))
                       (double_of_int (frames dat / 2)))).
Proof.
  intros HF. unfold getPitch3, int_half.
  rewrite Z.quot_div_nonneg by lia.
  assert (Hh : 1 <= frames dat / 2) by (apply Z.div_le_lower_bound; lia).
  assert (Hh' : frames dat / 2 <= frames dat) by (apply Z.div_le_upper_bound; lia).
  rewrite for_range_fold by lia. simpl.
  rewrite div_int_nonzero by lia. simpl.
  rewrite for_range_fold by lia. simpl.
  rewrite div_int_nonzero by lia. simpl.
  rewrite Z.sub_0_r, drop_0.
  rewrite (take_ge (drop _ _)).
  2:{ rewrite length_drop. unfold frames. lia. }
  reflexivity.
Qed.

Lemma getPitch4_value (dat : list float) (x : float) :
  6 <= frames dat -> frames dat <= INT_MAX -> last dat = Some x ->
  getPitch4 dat (frames dat) =
  Ok (PrimFloat.sub (div_5 x)
        (PrimFloat.div (fsum (take (Z.to_nat (frames dat - 5)) dat))
                       (double_of_int (frames dat - 5)))).
Proof.
  intros HF HM Hlast. unfold getPitch4, int_sub, in_int.
  destruct (Z.leb_spec INT_MIN (frames dat - 5)) as [_|H];
    [|unfold INT_MIN in H; lia].
  destruct (Z.leb_spec (frames dat - 5) INT_MAX) as [_|H]; [|lia].
  simpl.
  rewrite for_range_fold by lia. simpl.
  rewrite div_int_nonzero by lia. simpl.
  rewrite (for_range_ext _ (fun i s => y ← read dat i; Ok ((fun _ z => z) s y))).
  2:{ intros j t. now destruct (read dat j). }
  rewrite for_range_fold by lia. simpl.
  rewrite Z.sub_0_r, drop_0.
  rewrite (take_ge (drop _ _)).
  2:{ rewrite length_drop. unfold frames. lia. }
  rewrite (fold_left_keep_last _ _ x); [reflexivity|].
  rewrite last_of_tail; [assumption|]. unfold frames in *. lia.
Qed.

(** ** Binary64 arithmetic: signs and NaNs

    Facts about the specification of the IEEE operations that the
    statistics use: which results can be a NaN, and which sign a result
    carries. *)

Module Binary64.

Lemma has_sign_not_nan b s : has_sign b s -> not_nan s.
Proof. destruct s; simpl; unfold not_nan; congruence. Qed.

Lemma shr_1_nonneg mrs : 0 <= shr_m mrs -> 0 <= shr_m (shr_1 mrs).
Proof.
  destruct mrs as [m r s]. simpl.
  destruct m as [|[p|p|]|p]; simpl; lia.
Qed.

Lemma iter_pos_invariant {A : Type} (P : A -> Prop) (f : A -> A) :
  (forall x, P x -> P (f x)) -> forall n x, P x -> P (SpecFloat.iter_pos f n x).
Proof.
  intros Hf. induction n as [n IH|n IH|]; intros x Hx; simpl; auto.
Qed.

Lemma shr_nonneg mrs e n : 0 <= shr_m mrs -> 0 <= shr_m (fst (shr mrs e n)).
Proof.
  intros H. unfold shr. destruct n; simpl; auto.
  apply (iter_pos_invariant (fun r => 0 <= shr_m r)); auto using shr_1_nonneg.
Qed.

Lemma shr_fexp_nonneg m e l :
  0 <= m -> 0 <= shr_m (fst (shr_fexp prec emax m e l)).
Proof.
  intros H. unfold shr_fexp. apply shr_nonneg.
  destruct l as [|[]]; simpl; assumption.
Qed.

Lemma round_nearest_even_nonneg m l : 0 <= m -> 0 <= round_nearest_even m l.
Proof.
  intros H. unfold round_nearest_even.
  destruct l as [|[]]; try destruct (Z.even m); lia.
Qed.

(** Rounding a mantissa that is not negative keeps the sign it is given and
    never makes a NaN. *)
Lemma binary_round_aux_sign sx mx ex lx :
  0 <= mx -> has_sign sx (binary_round_aux prec emax sx mx ex lx).
Proof.
  intros H. unfold binary_round_aux.
  pose proof (shr_fexp_nonneg mx ex lx H) as H1.
  destruct (shr_fexp prec emax mx ex lx) as [mrs' e']. simpl in H1.
  pose proof (shr_fexp_nonneg _ e' loc_Exact
                (round_nearest_even_nonneg _ (loc_of_shr_record mrs') H1)) as H2.
  destruct (shr_fexp prec emax _ e' loc_Exact) as [mrs'' e'']. simpl in H2.
  destruct (shr_m mrs'') as [|m|m]; simpl; [reflexivity| |lia].
  destruct (Z.leb e'' (emax - prec)); reflexivity.
Qed.

Lemma binary_round_sign sx mx ex : has_sign sx (binary_round prec emax sx mx ex).
Proof.
  unfold binary_round. destruct (shl_align _ _ _) as [mz ez].
  apply binary_round_aux_sign. lia.
Qed.

Lemma binary_normalize_not_nan m e sz : not_nan (binary_normalize prec emax m e sz).
Proof.
  destruct m; simpl; [unfold not_nan; discriminate| |];
    eapply has_sign_not_nan, binary_round_sign.
Qed.

Lemma SFadd_not_nan a b :
  not_nan a -> finite_sf b -> not_nan (SFadd prec emax a b).
Proof.
  unfold not_nan.
  destruct a as [sa|sa| |sa ma ea], b as [sb|sb| |sb mb eb]; simpl;
    try congruence; try tauto.
  - destruct sa, sb; congruence.
  - intros _ _. apply binary_normalize_not_nan.
Qed.

Lemma SFsub_not_nan a b :
  finite_sf a -> not_nan b -> not_nan (SFsub prec emax a b).
Proof.
  unfold not_nan.
  destruct a as [sa|sa| |sa ma ea], b as [sb|sb| |sb mb eb]; simpl;
    try congruence; try tauto.
  - destruct sa, sb; congruence.
  - intros _ _. apply binary_normalize_not_nan.
Qed.

Lemma SFmul_square a : not_nan a -> has_sign false (SFmul prec emax a a).
Proof.
  unfold not_nan. destruct a as [s|s| |s m e]; simpl; try congruence;
    intros _; try (now destruct s).
  replace false with (xorb s s) by now destruct s.
  apply binary_round_aux_sign. lia.
Qed.

Lemma SFadd_nonneg a b :
  has_sign false a -> has_sign false b -> has_sign false (SFadd prec emax a b).
Proof.
  destruct a as [sa|sa| |sa ma ea], b as [sb|sb| |sb mb eb]; simpl;
    try tauto; intros -> ->; simpl; try reflexivity.
  apply binary_round_sign.
Qed.

Lemma SFdiv_core_nonneg m1 e1 m2 e2 :
  0 <= fst (fst (SFdiv_core_binary prec emax (Zpos m1) e1 (Zpos m2) e2)).
Proof.
  unfold SFdiv_core_binary.
  set (s := _ - _ - Z.min _ _).
  set (m' := match s with Zpos _ => _ | Z0 => _ | Zneg _ => _ end).
  assert (Hm : 0 <= m').
  { subst m'. destruct s; try lia. apply Z.shiftl_nonneg. lia. }
  pose proof (Z.div_pos m' (Zpos m2) Hm ltac:(lia)) as Hq.
  unfold Z.div in Hq. destruct (Z.div_eucl m' (Zpos m2)) as [q r]. exact Hq.
Qed.

(** Division by a positive finite divisor keeps the sign of the dividend. *)
Lemma SFdiv_sign b a m e :
  has_sign b a -> has_sign b (SFdiv prec emax a (S754_finite false m e)).
Proof.
  destruct a as [sa|sa| |sa ma ea]; simpl; try tauto; intros ->;
    try (now destruct b).
  pose proof (SFdiv_core_nonneg ma ea m e) as H.
  destruct (SFdiv_core_binary prec emax (Zpos ma) ea (Zpos m) e) as [[mz ez] lz].
  simpl in H. replace (xorb b false) with b by now destruct b.
  now apply binary_round_aux_sign.
Qed.

Lemma SFdiv_not_nan a m e :
  not_nan a -> not_nan (SFdiv prec emax a (S754_finite false m e)).
Proof.
  intros H. destruct a as [sa|sa| |sa ma ea]; try (now elim H);
    eapply has_sign_not_nan, (SFdiv_sign sa); reflexivity.
Qed.

Lemma SFsqrt_nonneg a : has_sign false a -> has_sign false (SFsqrt prec emax a).
Proof.
  destruct a as [sa|sa| |sa ma ea]; simpl; try tauto; intros ->; simpl;
    try reflexivity.
  unfold SFsqrt_core_binary.
  set (m' := match _ - _ with Zpos _ => _ | Z0 => _ | Zneg _ => _ end).
  assert (Hm : 0 <= m').
  { subst m'. destruct (_ - _); try lia. apply Z.shiftl_nonneg. lia. }
  pose proof (Z.sqrtrem_spec m' Hm) as H.
  destruct (Z.sqrtrem m') as [q r].
  apply binary_round_aux_sign. lia.
Qed.

Lemma SFleb_zero_nonneg a : has_sign false a -> SFleb (S754_zero false) a = true.
Proof.
  destruct a as [sa|sa| |sa ma ea]; simpl; try tauto; now intros ->.
Qed.

Lemma digits2_pos_shift p k :
  digits2_pos (Pos.iter xO p k) = (digits2_pos p + k)%positive.
Proof.
  induction k as [|k IH] using Pos.peano_ind.
  - simpl. lia.
  - rewrite Pos.iter_succ. simpl. rewrite IH. lia.
Qed.

Lemma digits2_pos_lower p : 2 ^ (Zpos (digits2_pos p) - 1) <= Zpos p.
Proof.
  induction p as [p IH|p IH|]; simpl digits2_pos.
  - rewrite Pos2Z.inj_succ.
    replace (Z.succ (Zpos (digits2_pos p)) - 1) with (Z.succ (Zpos (digits2_pos p) - 1)) by lia.
    rewrite Z.pow_succ_r by lia. lia.
  - rewrite Pos2Z.inj_succ.
    replace (Z.succ (Zpos (digits2_pos p)) - 1) with (Z.succ (Zpos (digits2_pos p) - 1)) by lia.
    rewrite Z.pow_succ_r by lia. lia.
  - simpl. lia.
Qed.

Lemma binary_round_aux_canonical sx m e :
  canonical_mantissa prec emax m e = true -> e <= emax - prec ->
  binary_round_aux prec emax sx (Zpos m) e loc_Exact = S754_finite sx m e.
Proof.
  unfold canonical_mantissa. intros Hc He. apply Z.eqb_eq in Hc.
  unfold binary_round_aux, shr_fexp, Zdigits2.
  rewrite Hc, Z.sub_diag. simpl shr. cbv beta iota.
  cbn [round_nearest_even loc_of_shr_record shr_m].
  rewrite Hc, Z.sub_diag. cbn [shr shr_m].
  apply Z.leb_le in He. now rewrite He.
Qed.

(** An integer of fewer than 32 bits converts to a finite float that is
    not a zero. *)
Lemma binary_round_small sx p :
  Zpos p < 2 ^ 31 ->
  exists m e, binary_round prec emax sx p 0 = S754_finite sx m e.
Proof.
  intros Hp.
  assert (Hd : Zpos (digits2_pos p) <= 31).
  { pose proof (digits2_pos_lower p) as H.
    destruct (Z.le_gt_cases (Zpos (digits2_pos p)) 31) as [|Hgt]; [assumption|].
    assert (2 ^ 31 <= 2 ^ (Zpos (digits2_pos p) - 1))
      by (apply Z.pow_le_mono_r; lia). lia. }
  unfold binary_round.
  assert (Hf : fexp prec emax (Zpos (digits2_pos p) + 0) = Zpos (digits2_pos p) - 53).
  { unfold fexp, SpecFloat.emin, prec, emax. lia. }
  rewrite Hf. unfold shl_align.
  destruct (Zpos (digits2_pos p) - 53 - 0) as [|d|d] eqn:Ed; try lia.
  eexists _, _. apply binary_round_aux_canonical.
  - unfold canonical_mantissa. rewrite digits2_pos_shift. apply Z.eqb_eq.
    unfold fexp, SpecFloat.emin, prec, emax. lia.
  - unfold prec, emax. lia.
Qed.

(** *** The primitive operations *)

Lemma Prim2SF_zero : Prim2SF 0%float = S754_zero false.
Proof. reflexivity. Qed.

Lemma is_finite_spec (x : float) :
  PrimFloat.is_finite x = true -> finite_sf (Prim2SF x).
Proof.
  unfold PrimFloat.is_finite, PrimFloat.is_nan, PrimFloat.is_infinity.
  rewrite !FloatAxioms.eqb_spec, abs_spec.
  change (Prim2SF infinity) with (S754_infinity false).
  destruct (Prim2SF x) as [s|s| |s m e]; simpl; try (intros _; exact I).
  - now destruct s.
  - discriminate.
Qed.

Lemma double_of_int_positive (n : Z) :
  1 <= n <= INT_MAX ->
  exists m e, Prim2SF (double_of_int n) = S754_finite false m e.
Proof.
  intros [Hlo Hhi]. unfold double_of_int.
  destruct (Z.ltb_spec n 0) as [H|_]; [lia|].
  rewrite of_uint63_spec, Uint63.of_Z_spec.
  unfold INT_MAX in Hhi.
  assert (HwB : Uint63.wB = 9223372036854775808) by reflexivity.
  rewrite Z.mod_small by lia.
  destruct n as [|p|p]; try lia.
  apply binary_round_small. lia.
Qed.

End Binary64.

Import Binary64.

(** ** [std::for_each] and folds that keep an invariant *)

Lemma for_each_fold {S : Type} (f : float -> S -> S) (dat : list float) (s : S) :
  for_each dat (frames dat) f s = Ok (fold_left (fun s x => f x s) dat s).
Proof.
  unfold for_each. destruct (Z.ltb_spec (frames dat) 0) as [H|_].
  { unfold frames in H. lia. }
  rewrite (for_range_fold (fun s x => f x s)) by (unfold frames; lia).
  rewrite Z.sub_0_r, drop_0. unfold frames. now rewrite Nat2Z.id, firstn_all.
Qed.

Lemma fold_left_invariant {S : Type} (P : S -> Prop) (Q : float -> Prop)
    (f : S -> float -> S) (l : list float) (s : S) :
  (forall t x, P t -> Q x -> P (f t x)) ->
  P s -> Forall Q l -> P (fold_left f l s).
Proof.
  intros Hf Hs Hl. revert s Hs.
  induction Hl as [|x l Hx _ IH]; intros s Hs; simpl; auto.
Qed.

Lemma getPitch2_value (dat : list float) :
  1 <= frames dat ->
  getPitch2 dat (frames dat) =
  Ok (PrimFloat.sqrt
        (PrimFloat.div
           (fold_left
              (fun sd each =>
                 PrimFloat.add sd
                   (pow_2 (PrimFloat.sub each
                             (PrimFloat.div (fsum dat) (double_of_int (frames dat))))))
              dat 0%float)
           (double_of_int (frames dat)))).
Proof.
  intros HF. unfold getPitch2.
  rewrite for_each_fold. simpl.
  rewrite div_int_nonzero by lia. simpl.
  rewrite for_each_fold. simpl.
  rewrite div_int_nonzero by lia. reflexivity.
Qed.

(** The sum of finite frames may overflow to an infinity; it is never a
    NaN. *)
Lemma fsum_not_nan (dat : list float) :
  Forall (fun x => PrimFloat.is_finite x = true) dat ->
  not_nan (Prim2SF (fsum dat)).
Proof.
  intros H. unfold fsum.
  apply (fold_left_invariant (fun s => not_nan (Prim2SF s))
           (fun x => PrimFloat.is_finite x = true)); [|discriminate|assumption].
  intros t x Ht Hx. rewrite add_spec. apply SFadd_not_nan; [assumption|].
  now apply is_finite_spec.
Qed.

Lemma squares_sum_nonneg (dat : list float) (mean : float) :
  Forall (fun x => PrimFloat.is_finite x = true) dat ->
  not_nan (Prim2SF mean) ->
  has_sign false
    (Prim2SF (fold_left
                (fun sd each => PrimFloat.add sd (pow_2 (PrimFloat.sub each mean)))
                dat 0%float)).
Proof.
  intros H Hm.
  apply (fold_left_invariant (fun s => has_sign false (Prim2SF s))
           (fun x => PrimFloat.is_finite x = true)); [|reflexivity|assumption].
  intros t x Ht Hx. unfold pow_2. rewrite add_spec.
  apply SFadd_nonneg; [assumption|].
  rewrite mul_spec. apply SFmul_square.
  rewrite sub_spec. apply SFsub_not_nan; [|assumption].
  now apply is_finite_spec.
Qed.

(** ** Pitch1: the mean over all frames *)

Lemma filter_voiced_silent (dat : list float) :
  Forall (fun x => PrimFloat.eqb x 0%float = true) dat ->
  List.filter voiced dat = [].
Proof.
  induction 1 as [|x l Hx _ IH]; simpl; [reflexivity|].
  unfold voiced at 1. now rewrite Hx.
Qed.

(** C4. For a contour of [F > 0] frames, Pitch1 is the sum of the frames
    that are not zero divided by the count [F] of all frames; when every
    frame is zero, Pitch1 is [0]. *)
Theorem getPitch1_mean_over_all_frames (dat : list float) :
  0 < frames dat -> frames dat <= INT_MAX ->
  getPitch1 dat (frames dat) =
    Ok (PrimFloat.div (fsum (List.filter voiced dat)) (double_of_int (frames dat)))
  /\ (Forall (fun x => PrimFloat.eqb x 0%float = true) dat ->
      getPitch1 dat (frames dat) = Ok 0%float).
Proof.
  intros HF HM. split; [now apply getPitch1_value|].
  intros Hz. rewrite getPitch1_value by assumption.
  rewrite (filter_voiced_silent dat Hz). unfold fsum. simpl. f_equal.
  destruct (double_of_int_positive (frames dat)) as (m & e & Hd); [lia|].
  apply Prim2SF_inj. rewrite div_spec, Hd. reflexivity.
Qed.

Lemma getPitch1_mean_witness :
  getPitch1 (fl [0; 0; 0]) 3 = Ok 0%float.
Proof.
  destruct (getPitch1_mean_over_all_frames (fl [0; 0; 0])) as [_ H];
    [reflexivity | discriminate | ].
  apply H. repeat constructor.
Defined.

(** C5 as the design document words it fails: with no frame the division
    is reached and its divisor is zero. *)
Lemma getPitch1_no_frames_divides_by_zero : getPitch1 [] 0 = Err DivByZero.
Proof. reflexivity. Qed.

(** C5, amended. The division of Pitch1 by the frame count has no guard:
    its divisor is zero exactly when there is no frame, and with one frame
    or more Pitch1 is computed. *)
Theorem getPitch1_division_unguarded (dat : list float) :
  (getPitch1 dat (frames dat) = Err DivByZero <-> frames dat = 0)
  /\ (frames dat <> 0 -> exists v, getPitch1 dat (frames dat) = Ok v).
Proof.
  assert (H0 : 0 <= frames dat) by (unfold frames; lia).
  split; [split|].
  - intros E. destruct (Z.eq_dec (frames dat) 0) as [|Hn]; [assumption|].
    rewrite getPitch1_value in E by lia. discriminate.
  - intros E. destruct dat; [reflexivity|discriminate].
  - intros Hn. rewrite getPitch1_value by lia. eauto.
Qed.

Lemma getPitch1_division_witness :
  exists v, getPitch1 (fl [10; 0; 30]) 3 = Ok v.
Proof.
  apply (getPitch1_division_unguarded (fl [10; 0; 30])). discriminate.
Defined.

(** ** Pitch3: the difference of the two halves *)

(** C3. For [F >= 2], Pitch3 is the sum of the frames from [F/2] to the end
    over [F/2], minus the sum of the first [F/2] frames over [F/2]; when
    [F] is odd the second sum runs over [F/2 + 1] frames. *)
Theorem getPitch3_halves (dat : list float) :
  2 <= frames dat ->
  let h := frames dat / 2 in
  getPitch3 dat (frames dat) =
    Ok (PrimFloat.sub
          (PrimFloat.div (fsum (drop (Z.to_nat h) dat)) (double_of_int h))
          (PrimFloat.div (fsum (take (Z.to_nat h) dat)) (double_of_int h)))
  /\ frames (take (Z.to_nat h) dat) = h
  /\ frames (drop (Z.to_nat h) dat) = frames dat - h
  /\ (Z.odd (frames dat) = true -> frames (drop (Z.to_nat h) dat) = h + 1).
Proof.
  intros HF h.
  assert (Hh : 1 <= h <= frames dat).
  { subst h. split; [apply Z.div_le_lower_bound|apply Z.div_le_upper_bound]; lia. }
  split; [now apply getPitch3_value|].
  unfold frames in *. rewrite length_take, length_drop.
  repeat split; try lia.
  intros Hodd. fold h.
  pose proof (Z.div_mod (Z.of_nat (length dat)) 2 ltac:(lia)) as Hdm.
  rewrite Zmod_odd, Hodd in Hdm. fold h in Hdm. lia.
Qed.

Lemma getPitch3_halves_witness :
  getPitch3 (fl [10; 20; 30; 40; 50]) 5 = Ok 45%float
  /\ frames (drop 2 (fl [10; 20; 30; 40; 50])) = 3.
Proof.
  destruct (getPitch3_halves (fl [10; 20; 30; 40; 50])) as (H1 & _ & _ & H2);
    [discriminate|].
  split; [exact H1 | apply H2; reflexivity].
Defined.

(** ** Pitch2: the population standard deviation *)

(** C7 as the design document words it fails: [falling] is a permutation of
    [rising], and Pitch2 is [sqrt (8/3)] on one and [sqrt (4/3)] on the
    other. *)
Lemma getPitch2_depends_on_order :
  Permutation rising falling
  /\ getPitch2 rising (frames rising) = Ok 0x1.a20bd700c2c3ep+0%float
  /\ getPitch2 falling (frames falling) = Ok 0x1.279a74590331cp+0%float
  /\ same_double (getPitch2 falling (frames falling))
                 (getPitch2 rising (frames rising)) = false.
Proof.
  split; [|repeat split; vm_compute; reflexivity].
  change rising with (double_of_int 9007199254740992
                      :: fl [9007199254740994; 9007199254740994]).
  change falling with (fl [9007199254740994; 9007199254740994]
                       ++ [double_of_int 9007199254740992]).
  apply Permutation_cons_append.
Qed.

(** The same on frequencies of the size a voice has: the two orders differ
    in the last place. *)
Example getPitch2_order_voice :
  getPitch2 [0x1.9066666666666p+6; 0x1.90ccccccccccdp+6; 0x1.6933333333333p+7]%float 3
    = Ok 0x1.2f656878e0bc9p+5%float
  /\ getPitch2 [0x1.6933333333333p+7; 0x1.90ccccccccccdp+6; 0x1.9066666666666p+6]%float 3
    = Ok 0x1.2f656878e0bcap+5%float.
Proof. split; vm_compute; reflexivity. Qed.

(** A frame that is not finite makes Pitch2 a NaN, which is not [>= 0]. *)
Example getPitch2_infinite_frame :
  getPitch2 [infinity] 1 = Ok nan /\ PrimFloat.leb 0%float nan = false.
Proof. split; vm_compute; reflexivity. Qed.

(** C7, amended. For every contour of [F >= 1] finite frames Pitch2 is
    computed and is [>= 0]; in particular it is not a NaN. Nothing is
    promised about reordering. *)
Theorem getPitch2_nonneg (dat : list float) :
  1 <= frames dat -> frames dat <= INT_MAX ->
  Forall (fun x => PrimFloat.is_finite x = true) dat ->
  exists r, getPitch2 dat (frames dat) = Ok r /\ PrimFloat.leb 0%float r = true.
Proof.
  intros HF HM Hfin. rewrite getPitch2_value by assumption.
  eexists. split; [reflexivity|].
  destruct (double_of_int_positive (frames dat)) as (m & e & Hd); [lia|].
  rewrite leb_spec, Prim2SF_zero. apply SFleb_zero_nonneg.
  rewrite sqrt_spec. apply SFsqrt_nonneg.
  rewrite div_spec, Hd. apply SFdiv_sign.
  apply squares_sum_nonneg; [assumption|].
  rewrite div_spec, Hd. apply SFdiv_not_nan.
  now apply fsum_not_nan.
Qed.

Lemma getPitch2_nonneg_witness :
  exists r, getPitch2 rising 3 = Ok r /\ PrimFloat.leb 0%float r = true.
Proof.
  apply (getPitch2_nonneg rising); [discriminate | discriminate | ].
  repeat constructor.
Defined.

(** ** Pitch4: the tail against the head *)

(** On six frames or more the code and the document use the same two
    terms, a fifth of the last frame and the average of the head, and
    subtract them in opposite orders. *)
Lemma getPitch4_mirrors_specification (dat : list float) :
  6 <= frames dat -> frames dat <= INT_MAX ->
  exists tail head,
    getPitch4 dat (frames dat) = Ok (PrimFloat.sub tail head)
    /\ Pitch4_as_specified dat = Some (PrimFloat.sub head tail).
Proof.
  intros HF HM.
  destruct (last dat) as [x|] eqn:Hl.
  2:{ apply last_None in Hl. subst dat. unfold frames in HF. simpl in HF. lia. }
  exists (div_5 x),
    (PrimFloat.div (fsum (take (Z.to_nat (frames dat - 5)) dat))
                   (double_of_int (frames dat - 5))).
  split; [now apply getPitch4_value|].
  unfold Pitch4_as_specified, average. rewrite Hl. simpl.
  replace (Z.to_nat (frames dat - 5)) with (length dat - 5)%nat
    by (unfold frames; lia).
  replace (frames (take (length dat - 5) dat)) with (frames dat - 5)
    by (unfold frames in *; rewrite length_take; lia).
  reflexivity.
Qed.

(** C1. On the frames [10, 20, 30, 40, 50, 60] the average of the head is
    [10] and a fifth of the last frame is [12]: the document asks for
    [10 - 12 = -2], [getPitch4] returns [12 - 10 = 2]. *)
Theorem getPitch4_sign_reversed :
  getPitch4 (fl [10; 20; 30; 40; 50; 60]) 6 = Ok 2%float
  /\ Pitch4_as_specified (fl [10; 20; 30; 40; 50; 60]) = Some (-2)%float.
Proof. split; vm_compute; reflexivity. Qed.

(** ** Which frame counts the loops are defined on *)

Lemma getPitch3_short (dat : list float) :
  frames dat < 2 -> getPitch3 dat (frames dat) = Err DivByZero.
Proof.
  intros HF. assert (H0 : 0 <= frames dat) by (unfold frames; lia).
  assert (Hh : int_half (frames dat) = 0).
  { unfold int_half. rewrite Z.quot_div_nonneg by lia.
    apply Z.div_small. lia. }
  unfold getPitch3. rewrite Hh.
  rewrite (for_range_empty 0 0) by lia. reflexivity.
Qed.

Lemma getPitch4_five (dat : list float) :
  frames dat = 5 -> getPitch4 dat (frames dat) = Err DivByZero.
Proof. intros ->. reflexivity. Qed.

Lemma getPitch4_short (dat : list float) :
  frames dat < 5 -> getPitch4 dat (frames dat) = Err (OutOfBounds (frames dat - 5)).
Proof.
  intros HF. assert (H0 : 0 <= frames dat) by (unfold frames; lia).
  unfold getPitch4, int_sub, in_int.
  destruct (Z.leb_spec INT_MIN (frames dat - 5)) as [_|H];
    [|unfold INT_MIN in H; lia].
  destruct (Z.leb_spec (frames dat - 5) INT_MAX) as [_|H];
    [|unfold INT_MAX in H; lia].
  simpl. rewrite (for_range_empty 0 (frames dat - 5)) by lia. simpl.
  rewrite div_int_nonzero by lia. simpl.
  rewrite (for_range_first_fails _ _ _ _ (OutOfBounds (frames dat - 5)));
    [reflexivity | lia | apply read_negative; lia].
Qed.

(** C10. With [F >= 6] frames both [getPitch3] and [getPitch4] run to the
    end: every access is inside the array and no divisor is zero. Two
    frames are enough for [getPitch3]. [getPitch4] needs six: with five it
    divides by [F - 5 = 0], with fewer its second loop starts at the
    negative index [F - 5]. *)
Theorem getPitch3_getPitch4_defined (dat : list float) :
  frames dat <= INT_MAX ->
  (6 <= frames dat ->
     (exists v, getPitch3 dat (frames dat) = Ok v)
     /\ (exists v, getPitch4 dat (frames dat) = Ok v))
  /\ (2 <= frames dat -> exists v, getPitch3 dat (frames dat) = Ok v)
  /\ (frames dat = 5 -> getPitch4 dat (frames dat) = Err DivByZero)
  /\ (frames dat < 5 ->
        getPitch4 dat (frames dat) = Err (OutOfBounds (frames dat - 5))
        /\ frames dat - 5 < 0).
Proof.
  intros HM.
  assert (H3 : 2 <= frames dat -> exists v, getPitch3 dat (frames dat) = Ok v).
  { intros HF. rewrite getPitch3_value by assumption. eauto. }
  repeat split.
  - apply H3. lia.
  - destruct (last dat) as [x|] eqn:Hl.
    + rewrite (getPitch4_value dat x) by assumption. eauto.
    + apply last_None in Hl. subst dat. unfold frames in H. simpl in H. lia.
  - exact H3.
  - apply getPitch4_five.
  - now apply getPitch4_short.
  - lia.
Qed.

Lemma getPitch3_getPitch4_defined_witness :
  (exists v, getPitch3 (fl [10; 20; 30; 40; 50; 60]) 6 = Ok v)
  /\ (exists v, getPitch4 (fl [10; 20; 30; 40; 50; 60]) 6 = Ok v)
  /\ getPitch4 (fl [10; 20; 30; 40; 50]) 5 = Err DivByZero
  /\ getPitch4 (fl [10; 20; 30; 40]) 4 = Err (OutOfBounds (-1)).
Proof.
  destruct (getPitch3_getPitch4_defined (fl [10; 20; 30; 40; 50; 60]))
    as (H6 & _); [discriminate|].
  destruct H6 as [H3 H4]; [discriminate|].
  destruct (getPitch3_getPitch4_defined (fl [10; 20; 30; 40; 50]))
    as (_ & _ & H5 & _); [discriminate|].
  destruct (getPitch3_getPitch4_defined (fl [10; 20; 30; 40]))
    as (_ & _ & _ & Hs); [discriminate|].
  destruct Hs as [Hs _]; [reflexivity|].
  split; [exact H3|]. split; [exact H4|]. split; [apply H5; reflexivity | exact Hs].
Defined.

(** ** The result object *)

Lemma json_at_put_fields (k : string) (v : json) (j : gmap string json) :
  has_fields j -> k ∈ fields -> json_at_put k v j = Ok (<[k := v]> j).
Proof.
  intros Hj Hk. unfold json_at_put.
  destruct (proj1 (Forall_forall _ _) Hj k Hk) as [x ->]. reflexivity.
Qed.

Lemma has_fields_insert (k : string) (v : json) (j : gmap string json) :
  has_fields j -> has_fields (<[k := v]> j).
Proof.
  unfold has_fields. intros Hj. eapply Forall_impl; [exact Hj|].
  intros k' H. apply lookup_insert_is_Some'. now right.
Qed.

Lemma has_fields_jsonResult0 : has_fields jsonResult0.
Proof. repeat constructor; eexists; reflexivity. Qed.

Create HintDb result_object.
#[local] Hint Resolve has_fields_insert : result_object.
#[local] Hint Extern 1 (_ ∈ fields) =>
  unfold fields; repeat constructor : result_object.

(** Runs the assignments to the result object that come next in a goal. *)
Ltac run_puts :=
  repeat (rewrite json_at_put_fields by auto with result_object;
          cbn [mbind res_bind]).

(** ** The statistics inside a call *)



(** ** The paths through a call *)

Lemma not_found_run (w : World) (fileName : string) (j : gmap string json) :
  fopen_s w fileName <> 0 -> has_fields j ->
  __PitchAnalyzer w fileName j =
  Ok (1000, <["comment" := JString "Error : file not found"]>
              (<["status" := JInt 1000]> j)).
Proof.
  intros Hopen Hj. unfold __PitchAnalyzer.
  destruct (Z.eqb_spec (fopen_s w fileName) 0) as [|_]; [contradiction|].
  change (errCode_at 1000) with (Ok (A := string) "Error : file not found").
  cbn [mbind res_bind]. run_puts. reflexivity.
Qed.

Lemma success_run (w : World) (fileName : string) (j : gmap string json)
    (dat : list float) (n : Z) (ret1 ret2 ret3 ret4 : float) :
  contour w fileName = Some (dat, n) -> has_fields j ->
  getPitch1 dat n = Ok ret1 -> getPitch2 dat n = Ok ret2 ->
  getPitch3 dat n = Ok ret3 -> getPitch4 dat n = Ok ret4 ->
  __PitchAnalyzer w fileName j =
  Ok (0, <["comment" := JString "success"]>
           (<["pitch4" := JFloat ret4]>
              (<["pitch3" := JFloat ret3]>
                 (<["pitch2" := JFloat ret2]>
                    (<["pitch1" := JFloat ret1]> j))))).
Proof.
  unfold contour, __PitchAnalyzer, _wavFile_new, _f0_new.
  destruct (fopen_s w fileName =? 0); [|discriminate].
  destruct ((GetAudioLength w fileName =? 0) || (GetAudioLength w fileName =? -1));
    [discriminate|].
  destruct (new_double w (GetAudioLength w fileName)); [discriminate|].
  destruct (wavread w fileName (GetAudioLength w fileName)) as [[fs nbit] buf].
  cbn [mbind res_bind _wavFile.fs _wavFile.length _wavFile.buf].
  destruct (new_double w _); [discriminate|].
  cbn [mbind res_bind _f0.numOfFrame].
  destruct (Harvest w buf (GetAudioLength w fileName) fs (frame_period w))
    as [temporal freq].
  cbn [snd]. intros [= <- <-] Hj -> -> -> ->.
  cbn [mbind res_bind]. run_puts.
  change (errCode_at 0) with (Ok (A := string) "success").
  cbn [mbind res_bind]. run_puts. reflexivity.
Qed.

(** A call that returns [0] has not written the status field. *)
Lemma success_keeps_status (w : World) (fileName : string)
    (j j' : gmap string json) :
  has_fields j -> __PitchAnalyzer w fileName j = Ok (0, j') ->
  is_Some (contour w fileName) /\ j' !! "status" = j !! "status".
Proof.
  intros Hj. unfold contour, __PitchAnalyzer, _wavFile_new, _f0_new.
  destruct (fopen_s w fileName =? 0).
  2:{ change (errCode_at 1000) with (Ok (A := string) "Error : file not found").
      cbn [mbind res_bind]. run_puts. discriminate. }
  destruct ((GetAudioLength w fileName =? 0) || (GetAudioLength w fileName =? -1)).
  { change (errCode_at 1002)
      with (Ok (A := string) "Error : file is not on correct format").
    run_puts. discriminate. }
  destruct (new_double w (GetAudioLength w fileName)).
  { change (errCode_at 3000)
      with (Ok (A := string) "Error : Memory Allocation Error").
    cbn [mbind res_bind]. run_puts. discriminate. }
  destruct (wavread w fileName (GetAudioLength w fileName)) as [[fs nbit] buf].
  cbn [mbind res_bind _wavFile.fs _wavFile.length _wavFile.buf].
  destruct (new_double w _).
  { change (errCode_at 3000)
      with (Ok (A := string) "Error : Memory Allocation Error").
    cbn [mbind res_bind]. run_puts. discriminate. }
  cbn [mbind res_bind _f0.numOfFrame].
  destruct (Harvest w buf (GetAudioLength w fileName) fs (frame_period w))
    as [temporal freq].
  destruct (getPitch1 _ _); [|discriminate].
  destruct (getPitch2 _ _); [|discriminate].
  destruct (getPitch3 _ _); [|discriminate].
  destruct (getPitch4 _ _); [|discriminate].
  cbn [mbind res_bind]. run_puts.
  change (errCode_at 0) with (Ok (A := string) "success").
  cbn [mbind res_bind]. run_puts.
  intros [= <-]. split; [eauto|].
  now rewrite !lookup_insert_ne by discriminate.
Qed.


(** ** The file that cannot be opened *)

(** C6. When the file cannot be opened, the call stores [1000] in the
    status field and the catalogue's text for [1000],
    ["Error : file not found"], in the comment field, and returns
    [1000]. *)
Theorem file_not_found_reported (w : World) (fileName : string)
    (j : gmap string json) :
  fopen_s w fileName <> 0 -> has_fields j ->
  exists j',
    __PitchAnalyzer w fileName j = Ok (1000, j')
    /\ j' !! "status" = Some (JInt 1000)
    /\ errCode !! 1000 = Some "Error : file not found"
    /\ j' !! "comment" = JString <$> errCode !! 1000.
Proof.
  intros Hopen Hj. eexists. split; [now apply not_found_run|].
  split; [|split; [reflexivity|]].
  - rewrite lookup_insert_ne by discriminate. apply lookup_insert_eq.
  - rewrite lookup_insert_eq. reflexivity.
Qed.

Lemma file_not_found_reported_witness :
  exists j',
    __PitchAnalyzer studio "missing.wav" jsonResult0 = Ok (1000, j')
    /\ j' !! "status" = Some (JInt 1000)
    /\ errCode !! 1000 = Some "Error : file not found"
    /\ j' !! "comment" = JString <$> errCode !! 1000.
Proof.
  apply (file_not_found_reported studio "missing.wav" jsonResult0).
  - vm_compute. discriminate.
  - exact has_fields_jsonResult0.
Defined.

(** C9. When the file cannot be opened, the call writes the status and the
    comment and nothing else: every other field of the result object, the
    four pitch fields among them, holds what it held before the call. *)
Theorem file_not_found_keeps_pitches (w : World) (fileName : string)
    (j : gmap string json) :
  fopen_s w fileName <> 0 -> has_fields j ->
  exists j',
    __PitchAnalyzer w fileName j = Ok (1000, j')
    /\ (forall k, k <> "status" -> k <> "comment" -> j' !! k = j !! k)
    /\ Forall (fun k => j' !! k = j !! k) ["pitch1"; "pitch2"; "pitch3"; "pitch4"].
Proof.
  intros Hopen Hj. eexists. split; [now apply not_found_run|].
  assert (H : forall k : string, k <> "status" -> k <> "comment" ->
    <["comment" := JString "Error : file not found"]>
      (<["status" := JInt 1000]> j) !! k = j !! k).
  { intros k Hs Hc. now rewrite !lookup_insert_ne by congruence. }
  split; [exact H|].
  repeat constructor; apply H; discriminate.
Qed.

Lemma file_not_found_keeps_pitches_witness :
  exists j',
    __PitchAnalyzer studio "missing.wav"
      (<["pitch1" := JFloat 35]> jsonResult0) = Ok (1000, j')
    /\ j' !! "pitch1" = Some (JFloat 35).
Proof.
  destruct (file_not_found_keeps_pitches studio "missing.wav"
              (<["pitch1" := JFloat 35]> jsonResult0)) as (j' & Hrun & Hk & _).
  - vm_compute. discriminate.
  - apply has_fields_insert, has_fields_jsonResult0.
  - exists j'. split; [exact Hrun|].
    rewrite Hk by discriminate. apply lookup_insert_eq.
Defined.

(** ** The status on the success path *)

(** C2. A call on a file that cannot be opened, then a call on [voice.wav]
    that succeeds: the second call returns [0], stores the four statistics
    and the comment ["success"], and leaves the status field at [1000]. *)
Theorem success_after_failure_keeps_status :
  exists j1 j2,
    __PitchAnalyzer studio "missing.wav" jsonResult0 = Ok (1000, j1)
    /\ __PitchAnalyzer studio "voice.wav" j1 = Ok (0, j2)
    /\ j2 !! "status" = Some (JInt 1000)
    /\ j2 !! "comment" = Some (JString "success")
    /\ j2 !! "pitch1" = Some (JFloat 35)
    /\ j2 !! "pitch3" = Some (JFloat 30)
    /\ j2 !! "pitch4" = Some (JFloat 2).
Proof.
  eexists _, _. split.
  { apply not_found_run; [vm_compute; discriminate|exact has_fields_jsonResult0]. }
  split.
  { apply (success_run studio "voice.wav" _ (fl [10; 20; 30; 40; 50; 60]) 6
             35 0x1.114084691dd48p+4 30 2);
      try (vm_compute; reflexivity).
    auto using has_fields_jsonResult0 with result_object. }
  repeat split; vm_compute; reflexivity.
Qed.

(** ** The buffer returned by [PitchAnalyzer2] *)

(** A recording of three frames or of five reaches [getPitch4] outside the
    frame counts it is defined on, and nothing is promised about the
    call. *)
Example short_recording_undefined :
  __PitchAnalyzer (recording (fl [10; 20; 30])) "voice.wav" jsonResult0
    = Err (OutOfBounds (-2))
  /\ __PitchAnalyzer (recording (fl [10; 20; 30; 40; 50])) "voice.wav" jsonResult0
    = Err DivByZero.
Proof. split; vm_compute; reflexivity. Qed.




(** * Further properties of the statistics *)

(** ** Which cells a statistic reads *)

Lemma iterate_ext_visited {S : Type} (body body' : Z -> S -> res S) n i s :
  (forall j t, i <= j < i + Z.of_nat n -> body j t = body' j t) ->
  iterate n i body s = iterate n i body' s.
Proof.
  revert i s. induction n as [|n IH]; intros i s E; simpl; [easy|].
  rewrite E by lia. destruct (body' i s); simpl; [|reflexivity].
  apply IH. intros j t Hj. apply E. lia.
Qed.

Lemma for_range_ext_visited {S : Type} (body body' : Z -> S -> res S) lo hi s :
  (forall j t, lo <= j < hi -> body j t = body' j t) ->
  for_range lo hi body s = for_range lo hi body' s.
Proof.
  intros E. apply iterate_ext_visited. intros j t Hj. apply E. lia.
Qed.

Lemma read_take (dat : list float) (n j : Z) :
  j < n -> read (take (Z.to_nat n) dat) j = read dat j.
Proof.
  intros H. unfold read. destruct (Z.ltb_spec j 0); [reflexivity|].
  rewrite lookup_take_lt by lia. reflexivity.
Qed.

Lemma int_half_below (n j : Z) : 0 <= j < int_half n -> j < n.
Proof.
  unfold int_half. intros H.
  destruct (Z.le_gt_cases n 0) as [Hn|Hn].
  - pose proof (Z.quot_le_mono n 0 2 ltac:(lia) Hn) as Hq.
    rewrite Z.quot_0_l in Hq by lia. lia.
  - pose proof (Z.quot_lt n 2 ltac:(lia) ltac:(lia)). lia.
Qed.

(** Replaces, in the first loop of the goal that runs over the cut array
    [take n dat], the cut array by [dat]; what is left to show is that the
    loop stays below [n]. *)
Ltac uncut_loop n dat :=
  match goal with
  | |- context [for_range ?lo ?hi ?body ?s] =>
      lazymatch body with context [take (Z.to_nat n) dat] => idtac end;
      let body' := eval pattern (take (Z.to_nat n) dat) in body in
      lazymatch body' with
      | ?F _ =>
          rewrite (for_range_ext_visited body (F dat) lo hi s);
          [ cbv beta
          | let j := fresh "j" in let t := fresh "t" in let Hj := fresh "Hj" in
            intros j t Hj; cbv beta; rewrite (read_take dat n j); [reflexivity|] ]
      end
  end.

(** X1. A statistic handed [dat_length] reads no cell from [dat_length] on:
    cutting the array to its first [dat_length] cells changes neither the
    value nor the error of any of the four. *)
Theorem statistics_read_prefix (dat : list float) (n : Z) :
  getPitch1 (take (Z.to_nat n) dat) n = getPitch1 dat n
  /\ getPitch2 (take (Z.to_nat n) dat) n = getPitch2 dat n
  /\ getPitch3 (take (Z.to_nat n) dat) n = getPitch3 dat n
  /\ getPitch4 (take (Z.to_nat n) dat) n = getPitch4 dat n.
Proof.
  repeat split.
  - unfold getPitch1. uncut_loop n dat; [reflexivity|lia].
  - unfold getPitch2, for_each. destruct (n <? 0); [reflexivity|].
    uncut_loop n dat; [|lia].
    destruct (for_range _ _ _ _) as [sum|]; cbn [mbind res_bind]; [|reflexivity].
    destruct (div_int sum n) as [mean|]; cbn [mbind res_bind]; [|reflexivity].
    uncut_loop n dat; [reflexivity|lia].
  - unfold getPitch3.
    uncut_loop n dat; [|first [lia | apply int_half_below; lia]].
    uncut_loop n dat; [reflexivity|first [lia | apply int_half_below; lia]].
  - unfold getPitch4, int_sub. destruct (in_int (n - 5)); [|reflexivity].
    cbn [mbind res_bind].
    uncut_loop n dat; [|lia]. uncut_loop n dat; [reflexivity|lia].
Qed.

(** ** A length longer than the array *)

Lemma iterate_runs_off {S : Type} (body : Z -> S -> res S) (dat : list float)
    n k s :
  (forall i t, 0 <= i < frames dat -> exists t', body i t = Ok t') ->
  (forall t, body (frames dat) t = Err (OutOfBounds (frames dat))) ->
  0 <= k <= frames dat -> frames dat < k + Z.of_nat n ->
  iterate n k body s = Err (OutOfBounds (frames dat)).
Proof.
  intros Hin Hout. revert k s.
  induction n as [|n IH]; intros k s Hk Hn; [lia|]. simpl.
  destruct (Z.eq_dec k (frames dat)) as [->|Hne].
  - now rewrite Hout.
  - destruct (Hin k s ltac:(lia)) as [t' ->]. simpl. apply IH; lia.
Qed.

Lemma read_inside (dat : list float) (i : Z) :
  0 <= i < frames dat -> exists x, read dat i = Ok x.
Proof.
  intros H. unfold read, frames in *.
  destruct (Z.ltb_spec i 0); [lia|].
  destruct (lookup_lt_is_Some_2 dat (Z.to_nat i) ltac:(lia)) as [x ->]. eauto.
Qed.

Lemma read_at_end (dat : list float) :
  read dat (frames dat) = Err (OutOfBounds (frames dat)).
Proof.
  unfold read, frames. destruct (Z.ltb_spec (Z.of_nat (length dat)) 0); [lia|].
  rewrite Nat2Z.id, lookup_ge_None_2 by lia. reflexivity.
Qed.

(** X2. Handed a length greater than the array has cells, [getPitch1] and
    [getPitch2] read the cell just past the array's end. *)
Theorem mean_and_deviation_overrun (dat : list float) (n : Z) :
  frames dat < n ->
  getPitch1 dat n = Err (OutOfBounds (frames dat))
  /\ getPitch2 dat n = Err (OutOfBounds (frames dat)).
Proof.
  intros Hn. assert (H0 : 0 <= frames dat) by (unfold frames; lia).
  split.
  - unfold getPitch1, for_range. rewrite (iterate_runs_off _ dat); try lia.
    + reflexivity.
    + intros i t Hi. destruct (read_inside dat i Hi) as [x ->]. simpl.
      destruct (PrimFloat.eqb x 0%float); eauto.
    + intros t. now rewrite read_at_end.
  - unfold getPitch2, for_each, for_range.
    destruct (Z.ltb_spec n 0); [lia|].
    rewrite (iterate_runs_off _ dat); try lia.
    + reflexivity.
    + intros i t Hi. destruct (read_inside dat i Hi) as [x ->]. simpl. eauto.
    + intros t. now rewrite read_at_end.
Qed.

Lemma mean_and_deviation_overrun_witness :
  getPitch1 (fl [10; 20; 30]) 4 = Err (OutOfBounds 3)
  /\ getPitch2 (fl [10; 20; 30]) 4 = Err (OutOfBounds 3).
Proof. apply (mean_and_deviation_overrun (fl [10; 20; 30]) 4). reflexivity. Defined.

(** ** Pitch2 without frames *)

(** X3. The two divisions of [getPitch2] by the frame count have no guard:
    the first is by zero exactly when there is no frame, and with one
    frame or more Pitch2 is computed. *)
Theorem getPitch2_division_unguarded (dat : list float) :
  (getPitch2 dat (frames dat) = Err DivByZero <-> frames dat = 0)
  /\ (frames dat <> 0 -> exists v, getPitch2 dat (frames dat) = Ok v).
Proof.
  assert (H0 : 0 <= frames dat) by (unfold frames; lia).
  split; [split|].
  - intros E. destruct (Z.eq_dec (frames dat) 0) as [|Hn]; [assumption|].
    rewrite getPitch2_value in E by lia. discriminate.
  - intros E. destruct dat; [reflexivity|discriminate].
  - intros Hn. rewrite getPitch2_value by lia. eauto.
Qed.

Lemma getPitch2_division_witness :
  exists v, getPitch2 (fl [10; 0; 30]) 3 = Ok v.
Proof.
  apply (getPitch2_division_unguarded (fl [10; 0; 30])). discriminate.
Defined.

(** ** The frames Pitch4 does not look at *)

(** X4. Of the last five frames only the last one reaches Pitch4: two contours
    with the same head and the same last frame have the same Pitch4,
    whatever the four frames in between. *)
Theorem getPitch4_ignores_four_frames (head mid mid' : list float) (x : float) :
  (1 <= length head)%nat -> length mid = 4%nat -> length mid' = 4%nat ->
  frames (head ++ mid ++ [x]) <= INT_MAX ->
  getPitch4 (head ++ mid ++ [x]) (frames (head ++ mid ++ [x]))
  = getPitch4 (head ++ mid' ++ [x]) (frames (head ++ mid' ++ [x])).
Proof.
  intros Hh Hm Hm' HM.
  assert (HF : forall m : list float, length m = 4%nat ->
            frames (head ++ m ++ [x]) = Z.of_nat (length head) + 5).
  { intros m Hlen. unfold frames. rewrite !length_app, Hlen. simpl. lia. }
  assert (HV : forall m : list float, length m = 4%nat ->
            getPitch4 (head ++ m ++ [x]) (frames (head ++ m ++ [x])) =
            Ok (PrimFloat.sub (div_5 x)
                  (PrimFloat.div (fsum head)
                     (double_of_int (Z.of_nat (length head)))))).
  { intros m Hlen.
    rewrite (getPitch4_value _ x).
    - rewrite (HF m Hlen).
      replace (Z.of_nat (length head) + 5 - 5) with (Z.of_nat (length head)) by lia.
      rewrite Nat2Z.id, take_app_length. reflexivity.
    - rewrite (HF m Hlen). lia.
    - rewrite (HF m Hlen). rewrite (HF mid Hm) in HM. exact HM.
    - rewrite app_assoc. apply last_snoc. }
  now rewrite (HV mid Hm), (HV mid' Hm').
Qed.

Lemma getPitch4_ignores_four_frames_witness :
  getPitch4 (fl [10; 20; 30; 40; 50; 60]) 6 = getPitch4 (fl [10; 0; 0; 0; 0; 60]) 6.
Proof.
  apply (getPitch4_ignores_four_frames (fl [10]) (fl [20; 30; 40; 50])
           (fl [0; 0; 0; 0]) (double_of_int 60));
    [simpl; lia | reflexivity | reflexivity | discriminate].
Defined.

(** ** Pitch1 on frequencies that are not negative *)

Lemma nonneg_voiced_sign (x : float) :
  PrimFloat.leb 0%float x = true -> voiced x = true ->
  has_sign false (Prim2SF x).
Proof.
  unfold voiced. rewrite leb_spec, FloatAxioms.eqb_spec, Prim2SF_zero.
  destruct (Prim2SF x) as [s|s| |s m e]; simpl; try discriminate;
    destruct s; simpl; try discriminate; reflexivity.
Qed.

Lemma fsum_nonneg (l : list float) :
  Forall (fun x => has_sign false (Prim2SF x)) l ->
  has_sign false (Prim2SF (fsum l)).
Proof.
  intros H. unfold fsum.
  apply (fold_left_invariant (fun s => has_sign false (Prim2SF s))
           (fun x => has_sign false (Prim2SF x))); [|reflexivity|assumption].
  intros t x Ht Hx. rewrite FloatAxioms.add_spec. now apply SFadd_nonneg.
Qed.

(** X5. On frames that are all [>= 0], as a pitch tracker writes them, Pitch1
    is computed and is [>= 0]; it is not a NaN even when the sum
    overflows. *)
Theorem getPitch1_nonneg (dat : list float) :
  1 <= frames dat -> frames dat <= INT_MAX ->
  Forall (fun x => PrimFloat.leb 0%float x = true) dat ->
  exists r, getPitch1 dat (frames dat) = Ok r /\ PrimFloat.leb 0%float r = true.
Proof.
  intros HF HM Hpos. rewrite getPitch1_value by lia.
  eexists. split; [reflexivity|].
  destruct (double_of_int_positive (frames dat)) as (m & e & Hd); [lia|].
  rewrite leb_spec, Prim2SF_zero. apply SFleb_zero_nonneg.
  rewrite div_spec, Hd. apply SFdiv_sign. apply fsum_nonneg.
  clear HF HM m e Hd.
  induction Hpos as [|x l Hx _ IH]; simpl; [constructor|].
  destruct (voiced x) eqn:Hv; [|exact IH].
  constructor; [now apply nonneg_voiced_sign|exact IH].
Qed.

Lemma getPitch1_nonneg_witness :
  exists r, getPitch1 (fl [10; 0; 30]) 3 = Ok r /\ PrimFloat.leb 0%float r = true.
Proof.
  apply (getPitch1_nonneg (fl [10; 0; 30])); [discriminate | discriminate | ].
  repeat constructor.
Defined.

(** ** Pitch3 on a contour that repeats itself *)

Lemma sub_self (a : float) :
  PrimFloat.is_finite a = true -> PrimFloat.sub a a = 0%float.
Proof.
  intros H. apply is_finite_spec in H. apply Prim2SF_inj.
  rewrite sub_spec, Prim2SF_zero.
  destruct (Prim2SF a) as [s|s| |s m e]; simpl in *; try tauto.
  - now destruct s.
  - unfold SF64sub, SFsub. rewrite Z.sub_diag. reflexivity.
Qed.

(** X6. When the second half of a contour repeats the first, frame for frame,
    and the average of that half is finite, Pitch3 is [0]. *)
Theorem getPitch3_repeated_half (l : list float) :
  (1 <= length l)%nat -> PrimFloat.is_finite (average l) = true ->
  getPitch3 (l ++ l) (frames (l ++ l)) = Ok 0%float.
Proof.
  intros Hl Hfin.
  assert (HF : frames (l ++ l) = frames l * 2).
  { unfold frames. rewrite length_app. lia. }
  rewrite getPitch3_value by (rewrite HF; unfold frames; lia).
  rewrite HF, Z.div_mul by lia. unfold frames at 1 3. rewrite Nat2Z.id.
  rewrite drop_app_length, take_app_length.
  fold (average l). now rewrite sub_self.
Qed.

Lemma getPitch3_repeated_half_witness :
  getPitch3 (fl [10; 20; 30; 10; 20; 30]) 6 = Ok 0%float.
Proof.
  apply (getPitch3_repeated_half (fl [10; 20; 30])); [simpl; lia | reflexivity].
Defined.

(** * Further properties of a call *)

(** ** The two shapes of a call *)

(** A call that does not get to the statistics returns, along one of the
    failure paths. *)
Lemma run_without_contour (w : World) (fileName : string)
    (j : gmap string json) :
  has_fields j -> contour w fileName = None ->
  exists code text,
    __PitchAnalyzer w fileName j = Ok (code, failed code text j)
    /\ ((code = 1000 /\ text = "Error : file not found"
         /\ fopen_s w fileName <> 0)
        \/ (code = 1002 /\ text = "Error : file is not on correct format"
            /\ fopen_s w fileName = 0
            /\ (GetAudioLength w fileName = 0 \/ GetAudioLength w fileName = -1))
        \/ (code = 3000
            /\ fopen_s w fileName = 0
            /\ GetAudioLength w fileName <> 0 /\ GetAudioLength w fileName <> -1
            /\ exists what,
                 text = "Error : Memory Allocation Error" +:+ what
                 /\ (new_double w (GetAudioLength w fileName) = Some what
                     \/ (new_double w (GetAudioLength w fileName) = None
                         /\ new_double w
                              (GetSamplesForHarvest w
                                 (wavread w fileName (GetAudioLength w fileName)).1.1
                                 (GetAudioLength w fileName) (frame_period w))
                            = Some what)))).
Proof.
  intros Hj. unfold contour, __PitchAnalyzer, _wavFile_new, _f0_new, failed.
  destruct (Z.eqb_spec (fopen_s w fileName) 0) as [Hopen|Hopen].
  2:{ intros _.
      change (errCode_at 1000) with (Ok (A := string) "Error : file not found").
      cbn [mbind res_bind]. run_puts. eexists 1000, _. split; [reflexivity|].
      left. auto. }
  destruct (Z.eqb_spec (GetAudioLength w fileName) 0) as [H0|H0].
  { intros _. cbn [orb].
    change (errCode_at 1002)
      with (Ok (A := string) "Error : file is not on correct format").
    run_puts. eexists 1002, _. split; [reflexivity|]. right; left. auto. }
  destruct (Z.eqb_spec (GetAudioLength w fileName) (-1)) as [H1|H1].
  { intros _. cbn [orb].
    change (errCode_at 1002)
      with (Ok (A := string) "Error : file is not on correct format").
    run_puts. eexists 1002, _. split; [reflexivity|]. right; left. auto. }
  cbn [orb].
  destruct (new_double w (GetAudioLength w fileName)) as [what|] eqn:Hwav.
  { intros _.
    change (errCode_at 3000)
      with (Ok (A := string) "Error : Memory Allocation Error").
    cbn [mbind res_bind]. run_puts. eexists 3000, _. split; [reflexivity|].
    right; right. repeat split; auto. exists what. auto. }
  destruct (wavread w fileName (GetAudioLength w fileName)) as [[fs nbit] buf].
  cbn [mbind res_bind _wavFile.fs _wavFile.length _wavFile.buf fst].
  cbv beta iota zeta.
  destruct (new_double w (GetSamplesForHarvest w fs (GetAudioLength w fileName)
                            (frame_period w))) as [what|] eqn:Hf0;
    [|discriminate].
  intros _.
  change (errCode_at 3000)
    with (Ok (A := string) "Error : Memory Allocation Error").
  cbn [mbind res_bind]. run_puts. eexists 3000, _. split; [reflexivity|].
  right; right. repeat split; auto. exists what. auto.
Qed.

(** A call that gets to the statistics is the four statistics, then the
    five assignments of the success path. *)
Lemma run_with_contour (w : World) (fileName : string) (j : gmap string json)
    (dat : list float) (n : Z) :
  has_fields j -> contour w fileName = Some (dat, n) ->
  __PitchAnalyzer w fileName j =
  (ret1 ← getPitch1 dat n; ret2 ← getPitch2 dat n;
   ret3 ← getPitch3 dat n; ret4 ← getPitch4 dat n;
   Ok (0, succeeded ret1 ret2 ret3 ret4 j)).
Proof.
  intros Hj. unfold contour, __PitchAnalyzer, _wavFile_new, _f0_new, succeeded.
  destruct (fopen_s w fileName =? 0); [|discriminate].
  destruct ((GetAudioLength w fileName =? 0) || (GetAudioLength w fileName =? -1));
    [discriminate|].
  destruct (new_double w (GetAudioLength w fileName)); [discriminate|].
  destruct (wavread w fileName (GetAudioLength w fileName)) as [[fs nbit] buf].
  cbn [mbind res_bind _wavFile.fs _wavFile.length _wavFile.buf].
  destruct (new_double w _); [discriminate|].
  cbn [mbind res_bind _f0.numOfFrame].
  destruct (Harvest w buf (GetAudioLength w fileName) fs (frame_period w))
    as [temporal freq].
  cbn [snd]. intros [= <- <-].
  destruct (getPitch1 _ _) as [r1|]; [|reflexivity].
  destruct (getPitch2 _ _) as [r2|]; [|reflexivity].
  destruct (getPitch3 _ _) as [r3|]; [|reflexivity].
  destruct (getPitch4 _ _) as [r4|]; [|reflexivity].
  cbn [mbind res_bind]. run_puts.
  change (errCode_at 0) with (Ok (A := string) "success").
  cbn [mbind res_bind]. run_puts. reflexivity.
Qed.

Lemma failed_lookup (code : Z) (text : string) (j : gmap string json) :
  failed code text j !! "status" = Some (JInt code)
  /\ failed code text j !! "comment" = Some (JString text)
  /\ (forall k, k <> "status" -> k <> "comment" -> failed code text j !! k = j !! k).
Proof.
  unfold failed. repeat split.
  - rewrite lookup_insert_ne by discriminate. apply lookup_insert_eq.
  - apply lookup_insert_eq.
  - intros k Hs Hc. now rewrite !lookup_insert_ne by congruence.
Qed.

Lemma has_fields_failed (code : Z) (text : string) (j : gmap string json) :
  has_fields j -> has_fields (failed code text j).
Proof. unfold failed. auto with result_object. Qed.

Lemma has_fields_succeeded (r1 r2 r3 r4 : float) (j : gmap string json) :
  has_fields j -> has_fields (succeeded r1 r2 r3 r4 j).
Proof. unfold succeeded. auto 10 with result_object. Qed.

(** ** Every failure path *)

(** X7. A call that does not get to the statistics always returns: its code
    is [1000], [1002] or [3000], the same code is stored in the status
    field, and no field other than the status and the comment changes. *)
Theorem failure_is_recorded (w : World) (fileName : string)
    (j : gmap string json) :
  has_fields j -> contour w fileName = None ->
  exists code j',
    __PitchAnalyzer w fileName j = Ok (code, j')
    /\ (code = 1000 \/ code = 1002 \/ code = 3000)
    /\ j' !! "status" = Some (JInt code)
    /\ (forall k, k <> "status" -> k <> "comment" -> j' !! k = j !! k).
Proof.
  intros Hj Hc.
  destruct (run_without_contour w fileName j Hj Hc) as (code & text & Hrun & Hpath).
  destruct (failed_lookup code text j) as (Hs & _ & Hk).
  exists code, (failed code text j). repeat split; auto.
  destruct Hpath as [(-> & _)|[(-> & _)|(-> & _)]]; auto.
Qed.

Lemma failure_is_recorded_witness :
  exists code j',
    __PitchAnalyzer truncated "voice.wav" jsonResult0 = Ok (code, j')
    /\ (code = 1000 \/ code = 1002 \/ code = 3000)
    /\ j' !! "status" = Some (JInt code)
    /\ (forall k, k <> "status" -> k <> "comment" -> j' !! k = jsonResult0 !! k).
Proof.
  apply (failure_is_recorded truncated "voice.wav" jsonResult0).
  - exact has_fields_jsonResult0.
  - reflexivity.
Defined.

(** X8. When the file opens and [GetAudioLength] answers [0] or [-1], the call
    returns [1002] and stores [1002] with the catalogue's text for it,
    without asking for memory. *)
Theorem bad_length_reported (w : World) (fileName : string)
    (j : gmap string json) :
  has_fields j -> fopen_s w fileName = 0 ->
  GetAudioLength w fileName = 0 \/ GetAudioLength w fileName = -1 ->
  exists j',
    __PitchAnalyzer w fileName j = Ok (1002, j')
    /\ j' !! "status" = Some (JInt 1002)
    /\ j' !! "comment" = JString <$> errCode !! 1002
    /\ j' !! "comment" = Some (JString "Error : file is not on correct format").
Proof.
  intros Hj Hopen Hlen.
  assert (Hc : contour w fileName = None).
  { unfold contour. rewrite Hopen. simpl.
    destruct Hlen as [-> | ->]; reflexivity. }
  destruct (run_without_contour w fileName j Hj Hc)
    as (code & text & Hrun & [(_ & _ & Hne)|[(-> & -> & _)|(_ & _ & H0 & H1 & _)]]).
  - congruence.
  - destruct (failed_lookup 1002 "Error : file is not on correct format" j)
      as (Hs & Hcm & _).
    eexists. split; [exact Hrun|]. split; [exact Hs|]. split; exact Hcm.
  - destruct Hlen; contradiction.
Qed.

Lemma bad_length_reported_witness :
  exists j',
    __PitchAnalyzer truncated "voice.wav" jsonResult0 = Ok (1002, j')
    /\ j' !! "status" = Some (JInt 1002)
    /\ j' !! "comment" = JString <$> errCode !! 1002
    /\ j' !! "comment" = Some (JString "Error : file is not on correct format").
Proof.
  apply (bad_length_reported truncated "voice.wav" jsonResult0).
  - exact has_fields_jsonResult0.
  - reflexivity.
  - left. reflexivity.
Defined.

(** X9. When an array cannot be allocated, the sample buffer of [_wavFile] or,
    after it, the arrays of [_f0], the call returns [3000] and the comment
    is the catalogue's text for [3000] followed by the [what()] of the
    exception. *)
Theorem allocation_failure_reported (w : World) (fileName : string)
    (j : gmap string json) (what : string) :
  has_fields j -> fopen_s w fileName = 0 ->
  GetAudioLength w fileName <> 0 -> GetAudioLength w fileName <> -1 ->
  new_double w (GetAudioLength w fileName) = Some what
  \/ (new_double w (GetAudioLength w fileName) = None
      /\ new_double w
           (GetSamplesForHarvest w
              (wavread w fileName (GetAudioLength w fileName)).1.1
              (GetAudioLength w fileName) (frame_period w)) = Some what) ->
  exists j',
    __PitchAnalyzer w fileName j = Ok (3000, j')
    /\ j' !! "status" = Some (JInt 3000)
    /\ j' !! "comment"
       = Some (JString ("Error : Memory Allocation Error" +:+ what)).
Proof.
  intros Hj Hopen H0 H1 Halloc.
  assert (Hc : contour w fileName = None).
  { unfold contour. rewrite Hopen. simpl.
    destruct (Z.eqb_spec (GetAudioLength w fileName) 0); [contradiction|].
    destruct (Z.eqb_spec (GetAudioLength w fileName) (-1)); [contradiction|].
    simpl. destruct Halloc as [-> | [-> Hf]]; [reflexivity|].
    destruct (wavread w fileName (GetAudioLength w fileName)) as [[fs nbit] buf].
    simpl in Hf. cbv beta iota zeta. now rewrite Hf. }
  destruct (run_without_contour w fileName j Hj Hc)
    as (code & text & Hrun
        & [(_ & _ & Hne)|[(_ & _ & _ & Hlen)|(-> & _ & _ & _ & what' & -> & Hw)]]).
  - congruence.
  - destruct Hlen; contradiction.
  - assert (what' = what) as ->.
    { destruct Halloc as [Ha|[Ha Hb]], Hw as [Hc1|[Hc1 Hc2]]; congruence. }
    destruct (failed_lookup 3000 ("Error : Memory Allocation Error" +:+ what) j)
      as (Hs & Hcm & _).
    eexists. split; [exact Hrun|]. split; assumption.
Qed.

Lemma allocation_failure_reported_witness :
  (exists j',
     __PitchAnalyzer cramped "voice.wav" jsonResult0 = Ok (3000, j')
     /\ j' !! "status" = Some (JInt 3000)
     /\ j' !! "comment"
        = Some (JString "Error : Memory Allocation Errorstd::bad_alloc"))
  /\ (exists j',
        __PitchAnalyzer long_take "voice.wav" jsonResult0 = Ok (3000, j')
        /\ j' !! "status" = Some (JInt 3000)
        /\ j' !! "comment"
           = Some (JString "Error : Memory Allocation Errorstd::bad_alloc")).
Proof.
  split.
  - apply (allocation_failure_reported cramped "voice.wav" jsonResult0
             "std::bad_alloc");
      [exact has_fields_jsonResult0 | reflexivity | discriminate | discriminate | ].
    left. reflexivity.
  - apply (allocation_failure_reported long_take "voice.wav" jsonResult0
             "std::bad_alloc");
      [exact has_fields_jsonResult0 | reflexivity | discriminate | discriminate | ].
    right. split; reflexivity.
Defined.

(** ** The success path *)

(** X10. A call that returns [0] got to the statistics: the four pitch fields
    hold the four statistics of the contour, the comment is ["success"],
    and every other field, the status among them, is as the call found
    it. *)
Theorem success_is_recorded (w : World) (fileName : string)
    (j j' : gmap string json) :
  has_fields j -> __PitchAnalyzer w fileName j = Ok (0, j') ->
  exists dat n ret1 ret2 ret3 ret4,
    contour w fileName = Some (dat, n)
    /\ getPitch1 dat n = Ok ret1 /\ getPitch2 dat n = Ok ret2
    /\ getPitch3 dat n = Ok ret3 /\ getPitch4 dat n = Ok ret4
    /\ j' !! "pitch1" = Some (JFloat ret1) /\ j' !! "pitch2" = Some (JFloat ret2)
    /\ j' !! "pitch3" = Some (JFloat ret3) /\ j' !! "pitch4" = Some (JFloat ret4)
    /\ j' !! "comment" = Some (JString "success")
    /\ (forall k, k ∉ ["pitch1"; "pitch2"; "pitch3"; "pitch4"; "comment"] ->
                  j' !! k = j !! k).
Proof.
  intros Hj Hrun.
  destruct (contour w fileName) as [[dat n]|] eqn:Hc.
  2:{ destruct (run_without_contour w fileName j Hj Hc)
        as (code & text & Hrun' & Hpath).
      rewrite Hrun in Hrun'. injection Hrun' as <- _.
      destruct Hpath as [(? & _)|[(? & _)|(? & _)]]; discriminate. }
  rewrite (run_with_contour w fileName j dat n Hj Hc) in Hrun.
  destruct (getPitch1 dat n) as [r1|] eqn:H1; [|discriminate].
  destruct (getPitch2 dat n) as [r2|] eqn:H2; [|discriminate].
  destruct (getPitch3 dat n) as [r3|] eqn:H3; [|discriminate].
  destruct (getPitch4 dat n) as [r4|] eqn:H4; [|discriminate].
  cbn [mbind res_bind] in Hrun. injection Hrun as <-.
  exists dat, n, r1, r2, r3, r4. unfold succeeded.
  repeat split; try assumption; try reflexivity.
  - now rewrite !lookup_insert_ne, lookup_insert_eq by discriminate.
  - now rewrite !lookup_insert_ne, lookup_insert_eq by discriminate.
  - now rewrite !lookup_insert_ne, lookup_insert_eq by discriminate.
  - now rewrite !lookup_insert_ne, lookup_insert_eq by discriminate.
  - apply lookup_insert_eq.
  - intros k Hk. rewrite !lookup_insert_ne; [reflexivity|..];
      intros <-; apply Hk; repeat constructor.
Qed.

Lemma success_is_recorded_witness :
  exists j', __PitchAnalyzer studio "voice.wav" jsonResult0 = Ok (0, j')
             /\ j' !! "pitch3" = Some (JFloat 30)
             /\ j' !! "status" = jsonResult0 !! "status".
Proof.
  assert (Hrun : __PitchAnalyzer studio "voice.wav" jsonResult0
                 = Ok (0, succeeded 35 0x1.114084691dd48p+4 30 2 jsonResult0)).
  { vm_compute. reflexivity. }
  destruct (success_is_recorded studio "voice.wav" jsonResult0 _
              has_fields_jsonResult0 Hrun)
    as (dat & n & r1 & r2 & r3 & r4 & Hc & _ & _ & H3 & _ & _ & _ & Hp3 & _ & _ & Hk).
  eexists. split; [exact Hrun|]. split.
  - rewrite Hp3. vm_compute in Hc. injection Hc as <- <-.
    vm_compute in H3. injection H3 as <-. reflexivity.
  - apply Hk. intros Hin. vm_compute in Hin.
    repeat (apply elem_of_cons in Hin as [Hin|Hin]; [discriminate|]).
    now apply elem_of_nil in Hin.
Defined.

(** ** Fields are neither added nor removed *)

Lemma dom_failed (code : Z) (text : string) (j : gmap string json) :
  has_fields j -> dom (failed code text j) = dom j.
Proof.
  intros Hj. unfold failed.
  rewrite !dom_insert_lookup_L; [reflexivity| |].
  - apply (proj1 (Forall_forall _ _) Hj). repeat constructor.
  - apply (proj1 (Forall_forall _ _) (has_fields_insert _ _ _ Hj)).
    repeat constructor.
Qed.

Lemma dom_succeeded (r1 r2 r3 r4 : float) (j : gmap string json) :
  has_fields j -> dom (succeeded r1 r2 r3 r4 j) = dom j.
Proof.
  intros Hj. unfold succeeded.
  assert (H : forall (k : string) (v : json) (m : gmap string json),
            has_fields m -> k ∈ fields -> dom (<[k := v]> m) = dom m).
  { intros k v m Hm Hk. apply dom_insert_lookup_L.
    now apply (proj1 (Forall_forall _ _) Hm). }
  rewrite !H; auto 10 with result_object.
Qed.

(** X11. A call that returns leaves the result object with exactly the fields
    it had: [at] assigns to fields, it never makes one. *)
Theorem call_keeps_fields (w : World) (fileName : string)
    (j j' : gmap string json) (code : Z) :
  has_fields j -> __PitchAnalyzer w fileName j = Ok (code, j') ->
  dom j' = dom j /\ has_fields j'.
Proof.
  intros Hj Hrun.
  destruct (contour w fileName) as [[dat n]|] eqn:Hc.
  - rewrite (run_with_contour w fileName j dat n Hj Hc) in Hrun.
    destruct (getPitch1 dat n) as [r1|]; [|discriminate].
    destruct (getPitch2 dat n) as [r2|]; [|discriminate].
    destruct (getPitch3 dat n) as [r3|]; [|discriminate].
    destruct (getPitch4 dat n) as [r4|]; [|discriminate].
    cbn [mbind res_bind] in Hrun. injection Hrun as _ <-.
    split; [now apply dom_succeeded|now apply has_fields_succeeded].
  - destruct (run_without_contour w fileName j Hj Hc)
      as (code' & text & Hrun' & _).
    rewrite Hrun in Hrun'. injection Hrun' as -> ->.
    split; [now apply dom_failed|now apply has_fields_failed].
Qed.

Lemma call_keeps_fields_witness :
  exists j', __PitchAnalyzer studio "missing.wav" jsonResult0 = Ok (1000, j')
             /\ dom j' = dom jsonResult0.
Proof.
  eexists. split; [apply not_found_run; [vm_compute; discriminate
                                        |exact has_fields_jsonResult0]|].
  eapply (call_keeps_fields studio "missing.wav" jsonResult0 _ 1000).
  - exact has_fields_jsonResult0.
  - apply not_found_run; [vm_compute; discriminate|exact has_fields_jsonResult0].
Defined.

(** ** A result object without its fields *)

(** X12. When the file cannot be opened and the result object has no status
    field, or has one and no comment field, the exception of [at] leaves
    the call: the handlers of [__PitchAnalyzer] catch [int] only. *)
Theorem missing_field_escapes (w : World) (fileName : string)
    (j : gmap string json) :
  fopen_s w fileName <> 0 ->
  (j !! "status" = None ->
     __PitchAnalyzer w fileName j = Err (JsonOutOfRange "status"))
  /\ (is_Some (j !! "status") -> j !! "comment" = None ->
        __PitchAnalyzer w fileName j = Err (JsonOutOfRange "comment")).
Proof.
  intros Hopen. unfold __PitchAnalyzer.
  destruct (Z.eqb_spec (fopen_s w fileName) 0) as [|_]; [contradiction|].
  change (errCode_at 1000) with (Ok (A := string) "Error : file not found").
  cbn [mbind res_bind]. unfold json_at_put. split.
  - intros ->. reflexivity.
  - intros [x ->] Hc. cbn [mbind res_bind].
    rewrite lookup_insert_ne by discriminate. now rewrite Hc.
Qed.

Lemma missing_field_escapes_witness :
  __PitchAnalyzer studio "missing.wav" ∅ = Err (JsonOutOfRange "status")
  /\ __PitchAnalyzer studio "missing.wav" {["status" := JInt 0]}
     = Err (JsonOutOfRange "comment").
Proof.
  destruct (missing_field_escapes studio "missing.wav" ∅) as [H1 _];
    [vm_compute; discriminate|].
  destruct (missing_field_escapes studio "missing.wav" {["status" := JInt 0]})
    as [_ H2]; [vm_compute; discriminate|].
  split; [apply H1; reflexivity|apply H2; [eexists|]; reflexivity].
Defined.

(** ** The same call twice *)

Lemma failed_twice (code : Z) (text : string) (j : gmap string json) :
  failed code text (failed code text j) = failed code text j.
Proof.
  unfold failed. apply map_eq. intros k.
  rewrite !lookup_insert. repeat case_decide; reflexivity.
Qed.

Lemma succeeded_twice (r1 r2 r3 r4 : float) (j : gmap string json) :
  succeeded r1 r2 r3 r4 (succeeded r1 r2 r3 r4 j) = succeeded r1 r2 r3 r4 j.
Proof.
  unfold succeeded. apply map_eq. intros k.
  rewrite !lookup_insert. repeat case_decide; reflexivity.
Qed.

(** X13. A call repeated on the object it has just left returns the same code
    and leaves the same object: nothing accumulates from call to call. *)
Theorem call_idempotent (w : World) (fileName : string)
    (j j' : gmap string json) (code : Z) :
  has_fields j -> __PitchAnalyzer w fileName j = Ok (code, j') ->
  __PitchAnalyzer w fileName j' = Ok (code, j').
Proof.
  intros Hj Hrun.
  destruct (contour w fileName) as [[dat n]|] eqn:Hc.
  - rewrite (run_with_contour w fileName j dat n Hj Hc) in Hrun.
    destruct (getPitch1 dat n) as [r1|] eqn:H1; [|discriminate].
    destruct (getPitch2 dat n) as [r2|] eqn:H2; [|discriminate].
    destruct (getPitch3 dat n) as [r3|] eqn:H3; [|discriminate].
    destruct (getPitch4 dat n) as [r4|] eqn:H4; [|discriminate].
    cbn [mbind res_bind] in Hrun. injection Hrun as <- <-.
    rewrite (run_with_contour w fileName _ dat n
               (has_fields_succeeded r1 r2 r3 r4 j Hj) Hc).
    rewrite H1, H2, H3, H4. cbn [mbind res_bind].
    now rewrite succeeded_twice.
  - destruct (run_without_contour w fileName j Hj Hc)
      as (c1 & t1 & Hrun1 & Hp1).
    rewrite Hrun in Hrun1. injection Hrun1 as -> ->.
    destruct (run_without_contour w fileName _ (has_fields_failed c1 t1 j Hj) Hc)
      as (c2 & t2 & Hrun2 & Hp2).
    rewrite Hrun2.
    assert (c2 = c1 /\ t2 = t1) as [-> ->].
    { destruct Hp1 as [(-> & -> & Ha)|[(-> & -> & Ha & Hb)
                       |(-> & Ha & Hb & Hb' & wh & -> & Hw)]],
               Hp2 as [(-> & -> & Ha2)|[(-> & -> & Ha2 & Hb2)
                       |(-> & Ha2 & Hb2 & Hb2' & wh2 & -> & Hw2)]];
        try (split; reflexivity); try congruence;
        try (destruct Hb; congruence); try (destruct Hb2; congruence).
      assert (wh2 = wh) as ->; [|split; reflexivity].
      destruct Hw as [Hw|[Hw Hw']], Hw2 as [Hw2|[Hw2 Hw2']]; congruence. }
    now rewrite failed_twice.
Qed.

Lemma call_idempotent_witness :
  exists j', __PitchAnalyzer studio "voice.wav" jsonResult0 = Ok (0, j')
             /\ __PitchAnalyzer studio "voice.wav" j' = Ok (0, j').
Proof.
  assert (Hrun : __PitchAnalyzer studio "voice.wav" jsonResult0
                 = Ok (0, succeeded 35 0x1.114084691dd48p+4 30 2 jsonResult0)).
  { vm_compute. reflexivity. }
  eexists. split; [exact Hrun|].
  exact (call_idempotent studio "voice.wav" jsonResult0 _ 0
           has_fields_jsonResult0 Hrun).
Defined.

(** * Properties of the two entry points *)

(** ** Copying into a buffer *)

Lemma length_chars (x : string) : length (chars x) = String.length x.
Proof. unfold chars. induction x as [|c x IH]; simpl; congruence. Qed.

(** A count that covers the string copies all of it. *)
Lemma copy_whole (x : string) (dest : list Ascii.ascii) (count : nat) :
  (String.length x <= count)%nat ->
  copy x dest count =
  if (length (chars x) <=? length dest)%nat
  then Ok (chars x ++ drop (length (chars x)) dest)
  else Err (OutOfBounds (Z.of_nat (length dest))).
Proof.
  intros H. unfold copy. rewrite take_ge by (rewrite length_chars; lia).
  reflexivity.
Qed.

Lemma c_str_from_app (text rest : list Ascii.ascii) (i : Z) :
  no_NUL text = true ->
  c_str_from i (text ++ rest) =
  (tail ← c_str_from (i + Z.of_nat (length text)) rest; Ok (text ++ tail)).
Proof.
  revert i. induction text as [|c text IH]; intros i H; simpl.
  - rewrite Z.add_0_r. now destruct (c_str_from i rest).
  - simpl in H. apply andb_prop in H as [Hc Ht].
    apply negb_true_iff in Hc. rewrite Hc, (IH _ Ht).
    replace (i + 1 + Z.of_nat (length text))
      with (i + Z.pos (Pos.of_succ_nat (length text))) by lia.
    now destruct (c_str_from _ rest).
Qed.

(** ** [PitchAnalyzer] and [PitchAnalyzer2] on the same call *)

(** X14. Whenever [PitchAnalyzer2] returns a text, [PitchAnalyzer] on a buffer
    with room for it returns the code of [__PitchAnalyzer], leaves the same
    result object, and writes the same text at the start of the buffer;
    the cells after the text keep what they held. *)
Theorem PitchAnalyzer_writes_text (w : World) (fileName : string)
    (dst : list Ascii.ascii) (j j' : gmap string json) (x : string) :
  PitchAnalyzer2 w fileName j = Ok (buffer x, j') ->
  (length (chars x) <= length dst)%nat ->
  exists code dst',
    __PitchAnalyzer w fileName j = Ok (code, j')
    /\ PitchAnalyzer w fileName dst j = Ok (code, dst', j')
    /\ dst' = chars x ++ drop (length (chars x)) dst
    /\ length dst' = length dst.
Proof.
  unfold PitchAnalyzer2, PitchAnalyzer. intros H Hroom.
  destruct (__PitchAnalyzer w fileName j) as [[code j1]|]; [|discriminate].
  cbn [mbind res_bind] in *. injection H as <- <-.
  rewrite copy_whole by lia.
  destruct (Nat.leb_spec (length (chars (dump w j1))) (length dst)); [|lia].
  cbn [mbind res_bind]. eexists code, _.
  split; [reflexivity|]. split; [|split; [reflexivity|]].
  - now destruct (Z.eqb_spec code 0) as [->|].
  - rewrite length_app, length_drop. lia.
Qed.

Lemma PitchAnalyzer_writes_text_witness :
  PitchAnalyzer studio "missing.wav" (chars "0123456789abcdefXY") jsonResult0
  = Ok (1000, chars "{status:error}efXY",
        failed 1000 "Error : file not found" jsonResult0).
Proof.
  destruct (PitchAnalyzer_writes_text studio "missing.wav"
              (chars "0123456789abcdefXY") jsonResult0
              (failed 1000 "Error : file not found" jsonResult0)
              "{status:error}") as (code & dst' & Hrun & H & -> & _).
  - vm_compute. reflexivity.
  - vm_compute. lia.
  - rewrite H. rewrite not_found_run in Hrun;
      [|vm_compute; discriminate|exact has_fields_jsonResult0].
    injection Hrun as <-. reflexivity.
Defined.

(** ** What the caller of [PitchAnalyzer] reads *)

(** X15. [PitchAnalyzer] writes no terminator: read as a C string, the buffer
    holds the text followed by whatever it held after the text's length, up
    to the first [NUL] there. *)
Theorem PitchAnalyzer_c_string (w : World) (fileName : string)
    (dst dst' : list Ascii.ascii) (j j' : gmap string json) (code : Z) :
  PitchAnalyzer w fileName dst j = Ok (code, dst', j') ->
  no_NUL (chars (dump w j')) = true ->
  c_str dst' =
  (tail ← c_str_from (Z.of_nat (length (chars (dump w j'))))
            (drop (length (chars (dump w j'))) dst);
   Ok (chars (dump w j') ++ tail)).
Proof.
  unfold PitchAnalyzer. intros H Hn.
  destruct (__PitchAnalyzer w fileName j) as [[err j1]|]; [|discriminate].
  cbn [mbind res_bind] in H. rewrite copy_whole in H by lia.
  destruct (length (chars (dump w j1)) <=? length dst)%nat; [|discriminate].
  cbn [mbind res_bind] in H. injection H as _ <- <-.
  unfold c_str. now rewrite c_str_from_app.
Qed.

Lemma PitchAnalyzer_c_string_witness :
  (exists code dst' j',
     PitchAnalyzer studio "missing.wav" (replicate 32 NUL) jsonResult0
     = Ok (code, dst', j')
     /\ c_str dst' = Ok (chars "{status:error}"))
  /\ (exists code dst' j',
        PitchAnalyzer studio "missing.wav"
          (chars "0123456789abcdefXY" ++ [NUL]) jsonResult0
        = Ok (code, dst', j')
        /\ c_str dst' = Ok (chars "{status:error}efXY")).
Proof.
  split.
  - eexists _, _, _. split; [vm_compute; reflexivity|].
    rewrite (PitchAnalyzer_c_string studio "missing.wav" (replicate 32 NUL) _
               jsonResult0 (failed 1000 "Error : file not found" jsonResult0) 1000);
      vm_compute; reflexivity.
  - eexists _, _, _. split; [vm_compute; reflexivity|].
    rewrite (PitchAnalyzer_c_string studio "missing.wav"
               (chars "0123456789abcdefXY" ++ [NUL]) _
               jsonResult0 (failed 1000 "Error : file not found" jsonResult0) 1000);
      vm_compute; reflexivity.
Defined.

(** ** A buffer that is too small *)

(** X16. When the text is longer than the caller's buffer, [PitchAnalyzer]
    writes past its end; when it is exactly as long, the text fits and no
    cell is left for a terminator, so that reading it as a C string runs
    off the buffer. *)
Theorem PitchAnalyzer_small_buffer (w : World) (fileName : string)
    (dst : list Ascii.ascii) (j j' : gmap string json) (x : string) :
  PitchAnalyzer2 w fileName j = Ok (buffer x, j') ->
  ((length dst < length (chars x))%nat ->
     PitchAnalyzer w fileName dst j = Err (OutOfBounds (Z.of_nat (length dst))))
  /\ (length dst = length (chars x) -> no_NUL (chars x) = true ->
        exists code,
          PitchAnalyzer w fileName dst j = Ok (code, chars x, j')
          /\ c_str (chars x) = Err (OutOfBounds (Z.of_nat (length dst)))).
Proof.
  unfold PitchAnalyzer2, PitchAnalyzer. intros H.
  destruct (__PitchAnalyzer w fileName j) as [[code j1]|]; [|discriminate].
  cbn [mbind res_bind] in *. injection H as <- <-.
  rewrite copy_whole by lia. split.
  - intros Hs. destruct (Nat.leb_spec (length (chars (dump w j1))) (length dst));
      [lia|reflexivity].
  - intros Hl Hn.
    destruct (Nat.leb_spec (length (chars (dump w j1))) (length dst)); [|lia].
    cbn [mbind res_bind]. rewrite drop_ge, app_nil_r by lia.
    exists (if code =? 0 then 0 else code). split; [reflexivity|].
    unfold c_str.
    rewrite <- (app_nil_r (chars (dump w j1))) at 1.
    rewrite c_str_from_app by assumption. simpl. now rewrite Hl.
Qed.

Lemma PitchAnalyzer_small_buffer_witness :
  PitchAnalyzer studio "missing.wav" (replicate 8 NUL) jsonResult0
  = Err (OutOfBounds 8)
  /\ c_str (chars "{status:error}") = Err (OutOfBounds 14).
Proof.
  destruct (PitchAnalyzer_small_buffer studio "missing.wav" (replicate 8 NUL)
              jsonResult0 (failed 1000 "Error : file not found" jsonResult0)
              "{status:error}") as [H1 _]; [vm_compute; reflexivity|].
  destruct (PitchAnalyzer_small_buffer studio "missing.wav" (replicate 14 NUL)
              jsonResult0 (failed 1000 "Error : file not found" jsonResult0)
              "{status:error}") as [_ H2]; [vm_compute; reflexivity|].
  split; [apply H1; vm_compute; lia|].
  destruct H2 as (code & _ & H); [reflexivity|reflexivity|exact H].
Defined.

(** ** The buffer of [PitchAnalyzer2] *)

(** X17. The array [PitchAnalyzer2] allocates is one cell longer than the text
    and zeroed, and the copy stops before the last cell: read as a C
    string it is the text, whole and terminated. *)
Theorem json_return_terminated (x : string) :
  no_NUL (chars x) = true ->
  exists buf,
    json_return x = Ok buf
    /\ buf = chars x ++ [NUL]
    /\ c_str buf = Ok (chars x).
Proof.
  intros Hn. unfold json_return. rewrite copy_whole by lia.
  rewrite length_replicate, length_chars.
  destruct (Nat.leb_spec (String.length x) (String.length x + 1)); [|lia].
  rewrite drop_replicate.
  replace (String.length x + 1 - String.length x)%nat with 1%nat by lia.
  eexists. split; [reflexivity|]. split; [reflexivity|].
  unfold c_str. rewrite c_str_from_app by assumption.
  cbn [replicate c_str_from]. change (Ascii.eqb NUL NUL) with true.
  cbn [mbind res_bind]. now rewrite app_nil_r.
Qed.

Lemma json_return_terminated_witness :
  exists buf, json_return "{status:0}" = Ok buf
              /\ buf = chars "{status:0}" ++ [NUL]
              /\ c_str buf = Ok (chars "{status:0}").
Proof. apply (json_return_terminated "{status:0}"). reflexivity. Defined.
